(** * Phase-chaining workflow demos: a shallow embedding

    The development follows the three source files of the repository:
    [config.py] (module [Config]), [autogen_simple_demo.py] (module
    [Autogen]) and [crewai_demo.py] (module [Crewai]).

    Python [str] values are Rocq strings holding the UTF-8 bytes of the text.
    Everything the programs do to the outside (console, process environment,
    completion endpoint, report files) is threaded through an explicit
    [World]; exceptions are the left summand of the result.

    Outside the model: [load_dotenv] (the environment is taken as it stands
    after it), the third-party constructors ([Groq], [Agent], [Task], [Crew])
    and failures of the console or of the file system.  Both programs write
    their report into [Path(__file__).resolve().parents[1]], the project
    root; [files] is that directory, indexed by file name. *)

From Stdlib Require Import String Ascii ZArith List Bool Lia.
From stdpp Require Import base option gmap strings list.

Local Open Scope string_scope.
Local Open Scope list_scope.
Local Open Scope Z_scope.

(** ** Text helpers *)

(** The newline character, written [\n] in the sources. *)
Definition LF : string := String (ascii_of_nat 10) EmptyString.

(** Python's [s * n] on strings. *)
Fixpoint str_mul (s : string) (n : nat) : string :=
  match n with
  | O => ""
  | S n' => s +:+ str_mul s n'
  end.
Arguments str_mul : simpl never.

(** Python's [sep.join(parts)]. *)
Fixpoint join (sep : string) (parts : list string) : string :=
  match parts with
  | [] => ""
  | [p] => p
  | p :: rest => p +:+ sep +:+ join sep rest
  end.

(** [needle in hay] on strings. *)
Fixpoint contains (needle hay : string) : bool :=
  String.prefix needle hay ||
  match hay with
  | EmptyString => false
  | String _ hay' => contains needle hay'
  end.

(** Case mapping of the 26 ASCII letters; every other byte is kept. *)
Definition ascii_upper_char (c : ascii) : ascii :=
  let n := nat_of_ascii c in
  if ((97 <=? n) && (n <=? 122))%nat then ascii_of_nat (n - 32) else c.

Definition ascii_lower_char (c : ascii) : ascii :=
  let n := nat_of_ascii c in
  if ((65 <=? n) && (n <=? 90))%nat then ascii_of_nat (n + 32) else c.

Fixpoint map_string (f : ascii -> ascii) (s : string) : string :=
  match s with
  | EmptyString => EmptyString
  | String c s' => String (f c) (map_string f s')
  end.

Definition ascii_upper : string -> string := map_string ascii_upper_char.
Definition ascii_lower : string -> string := map_string ascii_lower_char.

(** ** Python values, exceptions, the runtime *)

(** A Python [float] is carried as its IEEE-754 binary64 bit pattern; the
    programs never compute with one, they only pass it on. *)
Definition float := Z.

(** The values found in the agent dictionaries of [config.py]. *)
Inductive value :=
| VStr (s : string)
| VFloat (x : float).

Inductive exn :=
| RuntimeError (msg : string)
| KeyError (key : string)
| IndexError
| ValueError (arg : string)
| TypeError (msg : string)
| ExternalError (what : string).

(** The builtins whose full definition lives in the interpreter: the
    [float(...)] and [int(...)] conversions of text ([None] stands for
    [ValueError]), [str] of a float, and the Unicode case mappings
    [str.upper] and [str.lower]. *)
Class Python := {
  float_of_str : string -> option float;
  int_of_str : string -> option Z;
  str_of_float : float -> string;
  str_upper : string -> string;
  str_lower : string -> string;
}.

(** [str(v)], which is what an f-string placeholder [{v}] inserts. *)
Definition format_value `{Python} (v : value) : string :=
  match v with
  | VStr s => s
  | VFloat x => str_of_float x
  end.

(** ** The chat-completion interface *)

(** One entry of the [messages] list: [{"role": ..., "content": ...}]. *)
Record Message := { msg_role : string; msg_content : string }.

(** The keyword arguments of [client.chat.completions.create]. *)
Record Request := {
  req_model : string;
  req_temperature : option value;
  req_max_tokens : Z;
  req_messages : list Message;
}.

(** A response, reduced to what the program reads from it: the
    [message.content] of each entry of [response.choices].  The content of a
    choice is a text or [None]. *)
Definition Response := list (option string).

(** [str(content)], as [print] and an f-string placeholder show a content:
    a text as it is, [None] as the word None. *)
Definition str_content (content : option string) : string :=
  default "None" content.

(** ** The world outside the process *)

Record World := {
  stdout : list string;             (* one entry per [print] call *)
  environ : gmap string string;     (* [os.environ], after [load_dotenv] *)
  calls : list Request;             (* completion requests issued, oldest first *)
  files : gmap string string;       (* files of the project root, by name *)
}.

(** ** Computations: state passing with exceptions *)

Definition M (A : Type) : Type := World -> World * (exn + A).

Definition ret {A} (a : A) : M A := fun w => (w, inr a).
Definition raise {A} (e : exn) : M A := fun w => (w, inl e).
Definition bind {A B} (m : M A) (k : A -> M B) : M B :=
  fun w =>
    match m w with
    | (w', inl e) => (w', inl e)
    | (w', inr a) => k a w'
    end.

Notation "x <- m ;; k" := (bind m (fun x => k))
  (at level 100, m at next level, right associativity).
Notation "m ;; k" := (bind m (fun _ => k))
  (at level 100, right associativity).

(** [print(s)]. *)
Definition print (s : string) : M unit :=
  fun w => ({| stdout := stdout w ++ [s]; environ := environ w;
               calls := calls w; files := files w |}, inr tt).

(** [open(name, "w")]: the file is created or truncated. *)
Definition open_w (name : string) : M unit :=
  fun w => ({| stdout := stdout w; environ := environ w;
               calls := calls w; files := <[name := ""]> (files w) |}, inr tt).

(** [f.write(s)] on the file opened as [name]. *)
Definition write (name s : string) : M unit :=
  fun w => ({| stdout := stdout w; environ := environ w; calls := calls w;
               files := alter (fun old => old +:+ s) name (files w) |}, inr tt).

(** [f.write(content)] for a completion content: a text file takes a text
    and raises [TypeError] on [None], writing nothing. *)
Definition write_content (name : string) (content : option string) : M unit :=
  match content with
  | Some s => write name s
  | None => raise (TypeError "write() argument must be str, not None")
  end.

(** [os.environ[key] = val]. *)
Definition setenv (key val : string) : M unit :=
  fun w => ({| stdout := stdout w; environ := <[key := val]> (environ w);
               calls := calls w; files := files w |}, inr tt).

(** [d[key]] on a dictionary: [KeyError] when the key is absent. *)
Definition getitem {V} (d : gmap string V) (key : string) : M V :=
  match d !! key with
  | Some v => ret v
  | None => raise (KeyError key)
  end.

(** Truth value of an [Optional[str]]: [None] and the empty string are false. *)
Definition truthy (o : option string) : bool :=
  match o with
  | None => false
  | Some s => negb (String.eqb s "")
  end.

(** Assignment [d[key] = v] on an insertion-ordered dict: an existing key
    keeps its position, a new key goes last. *)
Fixpoint dict_set {V} (d : list (string * V)) (key : string) (v : V)
  : list (string * V) :=
  match d with
  | [] => [(key, v)]
  | (k, old) :: d' =>
      if String.eqb k key then (k, v) :: d' else (k, old) :: dict_set d' key v
  end.

(** ** config.py *)

Module Config.

(** [@dataclass class WorkflowPhase]. *)
Record WorkflowPhase := {
  name : string;
  description : string;
  agent_config : gmap string value;
}.

(** The module-level names that the two programs import. *)
Record globals := {
  GROQ_API_KEY : option string;
  GROQ_MODEL : string;
  GROQ_API_BASE : string;
  AGENT_TEMPERATURE_DEFAULT : float;
  AGENT_MAX_TOKENS : Z;
  AGENT_TIMEOUT : Z;
  VERBOSE : bool;
  DEBUG : bool;
  WORKFLOW_PHASES : list WorkflowPhase;
}.

(** [os.getenv(key)] and [os.getenv(key, default)]. *)
Definition getenv (key : string) : M (option string) :=
  fun w => (w, inr (environ w !! key)).

Definition getenv_default (key dflt : string) : M string :=
  fun w => (w, inr (default dflt (environ w !! key))).

Section WithPython.
Context `{Python}.

(** [float(s)] and [int(s)] at module level. *)
Definition to_float (s : string) : M float :=
  match float_of_str s with
  | Some x => ret x
  | None => raise (ValueError s)
  end.

Definition to_int (s : string) : M Z :=
  match int_of_str s with
  | Some n => ret n
  | None => raise (ValueError s)
  end.

Definition LITERATURE_AGENT (temperature : float) : gmap string value :=
  <["instructions" := VStr
      ("You conduct a concise but insightful literature review. " +:+
       "You summarize key themes, representative papers, and open questions, " +:+
       "highlighting where the field currently stands.")]>
  (<["temperature" := VFloat temperature]>
  (<["role" := VStr "Literature Review Specialist"]>
  (<["name" := VStr "LiteratureReviewer"]> ∅))).

Definition GAP_AGENT (temperature : float) : gmap string value :=
  <["instructions" := VStr
      ("You read the literature summary and identify gaps, tensions, and " +:+
       "promising research directions. You propose 2–3 concrete research " +:+
       "questions or hypotheses that a new paper could address.")]>
  (<["temperature" := VFloat temperature]>
  (<["role" := VStr "Research Gap Analyst"]>
  (<["name" := VStr "GapAnalyst"]> ∅))).

Definition OUTLINE_AGENT (temperature : float) : gmap string value :=
  <["instructions" := VStr
      ("You turn a research idea into a well-structured paper outline. " +:+
       "You define sections (e.g., Introduction, Related Work, Method, " +:+
       "Experiments, Discussion, Conclusion) and list bullet points for " +:+
       "what each section should cover.")]>
  (<["temperature" := VFloat temperature]>
  (<["role" := VStr "Research Paper Outline Designer"]>
  (<["name" := VStr "OutlineDesigner"]> ∅))).

Definition REVIEW_AGENT (temperature : float) : gmap string value :=
  <["instructions" := VStr
      ("You critically review the proposed outline, checking for coherence, " +:+
       "feasibility, and novelty. You suggest improvements and highlight " +:+
       "any missing sections or clarifications needed.")]>
  (<["temperature" := VFloat temperature]>
  (<["role" := VStr "Critical Research Mentor"]>
  (<["name" := VStr "OutlineReviewer"]> ∅))).

Definition phases (temperature : float) : list WorkflowPhase :=
  [ {| name := "literature";
       description := "Literature review on the topic";
       agent_config := LITERATURE_AGENT temperature |};
    {| name := "gaps";
       description := "Analyze research gaps and propose questions";
       agent_config := GAP_AGENT temperature |};
    {| name := "outline";
       description := "Design structured paper outline";
       agent_config := OUTLINE_AGENT temperature |};
    {| name := "review";
       description := "Critically review and refine the outline";
       agent_config := REVIEW_AGENT temperature |} ].

(** Executing the module body, top to bottom, on first import. *)
Definition import : M globals :=
  api_key <- getenv "GROQ_API_KEY" ;;
  model <- getenv_default "GROQ_MODEL" "llama-3.1-8b-instant" ;;
  temperature_text <- getenv_default "AGENT_TEMPERATURE" "0.7" ;;
  temperature <- to_float temperature_text ;;
  max_tokens_text <- getenv_default "AGENT_MAX_TOKENS" "2000" ;;
  max_tokens <- to_int max_tokens_text ;;
  timeout_text <- getenv_default "AGENT_TIMEOUT" "300" ;;
  timeout <- to_int timeout_text ;;
  verbose_text <- getenv_default "VERBOSE" "True" ;;
  debug_text <- getenv_default "DEBUG" "False" ;;
  ret {| GROQ_API_KEY := api_key;
         GROQ_MODEL := model;
         GROQ_API_BASE := "https://api.groq.com/openai/v1";
         AGENT_TEMPERATURE_DEFAULT := temperature;
         AGENT_MAX_TOKENS := max_tokens;
         AGENT_TIMEOUT := timeout;
         VERBOSE := String.eqb (str_lower verbose_text) "true";
         DEBUG := String.eqb (str_lower debug_text) "true";
         WORKFLOW_PHASES := phases temperature |}.

End WithPython.
End Config.

(** ** autogen_simple_demo.py *)

Module Autogen.
Import Config.

Definition TOPIC : string :=
  "How multi-agent AI systems can support human decision-making".

(** An instance of [ResearchPaperWorkflow]: the key held by the Groq client,
    the model name and the insertion-ordered [outputs] dict, which holds
    what the endpoint returned as content: a text or [None]. *)
Record ResearchPaperWorkflow := {
  client : string;
  model : string;
  outputs : list (string * option string);
}.

(** [out_path], as a name inside the project root (the console message of
    [run] shows it where the program shows the absolute path). *)
Definition out_path : string := "autogen_ex4.txt".

Section WithEndpoint.
Context `{Python}.

(** The hosted endpoint: given the requests it has already served and a new
    request, it raises or answers. *)
Variable endpoint : list Request -> Request -> exn + Response.

(** The module globals imported from [config.py]. *)
Variable g : globals.

(** [ResearchPaperWorkflow(model)]; [None] selects the default
    [model=GROQ_MODEL]. *)
Definition __init__ (model_arg : option string) : M ResearchPaperWorkflow :=
  if negb (truthy (GROQ_API_KEY g)) then
    raise (RuntimeError "GROQ_API_KEY is not set in .env.")
  else
    ret {| client := default "" (GROQ_API_KEY g);
           model := default (GROQ_MODEL g) model_arg;
           outputs := [] |}.

(** [self.client.chat.completions.create(...)]: the request goes out, is
    recorded, and the endpoint raises or answers. *)
Definition create (req : Request) : M Response :=
  fun w => ({| stdout := stdout w; environ := environ w;
               calls := calls w ++ [req]; files := files w |},
            endpoint (calls w) req).

(** [response.choices[0].message.content]. *)
Definition first_choice (response : Response) : M (option string) :=
  match response with
  | content :: _ => ret content
  | [] => raise IndexError
  end.

(** The [for prev_name, content in self.outputs.items()] loop that fills
    [context_chunks]. *)
Definition context_chunks (outs : list (string * option string)) : list string :=
  fold_left
    (fun chunks '(prev_name, content) =>
       chunks ++ ["[" +:+ str_upper prev_name +:+ " OUTPUT]" +:+ LF +:+
                  str_content content +:+ LF])
    outs [].

Definition context_text (outs : list (string * option string)) : string :=
  match context_chunks outs with
  | [] => "No prior context yet."
  | chunks => join LF chunks
  end.

(** The [if phase_name == ... elif ... else] chain. *)
Definition user_message (phase_name : string) : string :=
  if String.eqb phase_name "literature" then
    "Write a concise literature review for this topic. " +:+
    "Mention 3–5 key themes or directions and typical methods used."
  else if String.eqb phase_name "gaps" then
    "Based on the literature review, identify gaps or open problems. " +:+
    "Propose 2–3 concrete research questions or hypotheses that a new paper could address."
  else if String.eqb phase_name "outline" then
    "Design a detailed outline for a full research paper on this topic, " +:+
    "grounded in the research questions above. Use standard sections " +:+
    "(Introduction, Related Work, Method, Experiments, Results/Discussion, Conclusion) " +:+
    "with bullet points under each."
  else if String.eqb phase_name "review" then
    "Critically review the proposed outline. Point out strengths, weaknesses, " +:+
    "and any missing parts. Then provide an improved, final outline."
  else
    "Summarize the context above in a helpful way.".

Definition run_phase (self : ResearchPaperWorkflow)
    (phase_name description : string) (agent_cfg : gmap string value)
  : M ResearchPaperWorkflow :=
  print (LF +:+ str_mul "=" 80) ;;
  print ("PHASE: " +:+ str_upper description +:+ " (" +:+ phase_name +:+ ")") ;;
  print (str_mul "=" 80) ;;
  role <- getitem agent_cfg "role" ;;
  let system_prompt :=
    "You are a " +:+ format_value role +:+ "." +:+ LF +:+ LF +:+
    format_value (default (VStr "") (agent_cfg !! "instructions")) +:+ LF +:+ LF +:+
    "The paper topic is: '" +:+ TOPIC +:+ "'." in
  let context_text := context_text (outputs self) in
  let user_message := user_message phase_name in
  (if VERBOSE g then
     print (LF +:+ "[Context passed to agent]" +:+ LF) ;;
     print context_text
   else ret tt) ;;
  response <- create
    {| req_model := model self;
       req_temperature := agent_cfg !! "temperature";
       req_max_tokens := AGENT_MAX_TOKENS g;
       req_messages :=
         [ {| msg_role := "system"; msg_content := system_prompt |};
           {| msg_role := "user"; msg_content := user_message |} ] |} ;;
  content <- first_choice response ;;
  let self := {| client := client self; model := model self;
                 outputs := dict_set (outputs self) phase_name content |} in
  print (LF +:+ "[Agent output]" +:+ LF) ;;
  print (str_content content) ;;
  ret self.

(** The [for phase in WORKFLOW_PHASES] loop of [run]. *)
Fixpoint run_phases (phases : list WorkflowPhase) (self : ResearchPaperWorkflow)
  : M ResearchPaperWorkflow :=
  match phases with
  | [] => ret self
  | phase :: rest =>
      self <- run_phase self (name phase) (description phase) (agent_config phase) ;;
      run_phases rest self
  end.

(** The [for phase_name, content in self.outputs.items()] loop that writes
    one section per entry. *)
Fixpoint write_sections (outs : list (string * option string)) : M unit :=
  match outs with
  | [] => ret tt
  | (phase_name, content) :: rest =>
      write out_path ("--- PHASE: " +:+ phase_name +:+ " ---" +:+ LF) ;;
      write_content out_path content ;;
      write out_path (LF +:+ LF) ;;
      write_sections rest
  end.

(** [run] mutates [self] and returns [None]; here the mutated object is the
    result. *)
Definition run (self : ResearchPaperWorkflow) : M ResearchPaperWorkflow :=
  print (str_mul "=" 80) ;;
  print "AUTOGEN RESEARCH PAPER OUTLINE WORKFLOW (GROQ)" ;;
  print (str_mul "=" 80) ;;
  print ("Model: " +:+ model self) ;;
  print ("Paper topic: " +:+ TOPIC) ;;
  print (str_mul "=" 80) ;;
  self <- run_phases (WORKFLOW_PHASES g) self ;;
  print (LF +:+ str_mul "=" 80) ;;
  print "WORKFLOW COMPLETE" ;;
  print (str_mul "=" 80) ;;
  print "Final outline (reviewed) is in the 'review' phase output." ;;
  open_w out_path ;;
  write out_path ("AutoGen Exercise 4 - Research Paper Outline" +:+ LF) ;;
  write out_path (str_mul "=" 80 +:+ LF) ;;
  write out_path ("Topic: " +:+ TOPIC +:+ LF) ;;
  write out_path ("Model: " +:+ model self +:+ LF +:+ LF) ;;
  write_sections (outputs self) ;;
  print (LF +:+ "Saved full workflow output to: " +:+ out_path) ;;
  ret self.

End WithEndpoint.

(** The script: the imports run [config.py], then the [__main__] block
    builds the workflow and runs it.  [argv] is [sys.argv], which this
    script never reads. *)
Definition script `{Python} (endpoint : list Request -> Request -> exn + Response)
    (argv : list string) : M ResearchPaperWorkflow :=
  g <- Config.import ;;
  workflow <- __init__ g None ;;
  run endpoint g workflow.

End Autogen.

(** ** crewai_demo.py *)

Module Crewai.

(** The keyword arguments given to the framework's [Agent], [Task] and
    [Crew] constructors. *)
Record Agent := {
  role : string;
  goal : string;
  backstory : string;
  verbose : bool;
  allow_delegation : bool;
}.

Record Task := {
  description : string;
  agent : Agent;
  expected_output : string;
}.

Record Crew := {
  agents : list Agent;
  tasks : list Task;
  crew_verbose : bool;
  process : string;
}.

(** [out_path], as a name inside the project root (the console message of
    [main] shows it where the program shows the absolute path). *)
Definition out_path : string := "crewai_demo_ex4.txt".

Section WithFramework.

(** [crew.kickoff(inputs=...)]: the framework runs the tasks; whatever it
    does to the world (completion requests included) is its own business.
    The result is reduced to its [str]. *)
Variable kickoff : Crew -> gmap string string -> M string.

(** [str(datetime.now())] at the moment the report is written. *)
Variable now : string.

(** The module globals imported from [config.py]. *)
Variable g : Config.globals.

Definition create_program_chair_agent (conference_theme : string) : Agent :=
  {| role := "Program Chair";
     goal :=
       "Define clear goals, target audience, and high-level tracks for a " +:+
       "3-day conference on '" +:+ conference_theme +:+ "'.";
     backstory :=
       "You have chaired multiple academic and industry conferences. " +:+
       "You are skilled at clarifying who the conference is for, what " +:+
       "its objectives are, and how to structure tracks that align with " +:+
       "those goals.";
     verbose := Config.VERBOSE g;
     allow_delegation := false |}.

Definition create_track_designer_agent (conference_theme : string) : Agent :=
  {| role := "Track & Session Designer";
     goal :=
       "Design coherent session themes and talk ideas that fit the tracks " +:+
       "for a 3-day '" +:+ conference_theme +:+ "' conference.";
     backstory :=
       "You specialize in turning broad tracks into concrete sessions. " +:+
       "You ensure each session has a clear focus, a mix of perspectives, " +:+
       "and a logical flow for attendees.";
     verbose := Config.VERBOSE g;
     allow_delegation := false |}.

Definition create_schedule_planner_agent : Agent :=
  {| role := "Schedule Planner";
     goal :=
       "Arrange sessions into a practical 3-day timetable, balancing keynotes, " +:+
       "talks, breaks, and networking slots.";
     backstory :=
       "You are experienced in agenda planning. You avoid overloading any day, " +:+
       "make sure breaks are reasonable, and space popular sessions to avoid conflicts.";
     verbose := Config.VERBOSE g;
     allow_delegation := false |}.

Definition create_logistics_agent : Agent :=
  {| role := "Logistics & Risk Reviewer";
     goal :=
       "Review the proposed agenda for conflicts and logistical issues, and " +:+
       "suggest improvements.";
     backstory :=
       "You think like an operations manager. You spot problems such as " +:+
       "double-booked rooms, back-to-back intense sessions, or accessibility " +:+
       "issues, and propose practical fixes.";
     verbose := Config.VERBOSE g;
     allow_delegation := false |}.

Definition create_program_task (program_chair : Agent) (conference_theme : string)
  : Task :=
  {| description :=
       "Define the high-level structure of a 3-day conference on '" +:+
       conference_theme +:+ "'. " +:+
       "Clarify the primary audience, main goals, and propose 3â€“4 tracks " +:+
       "(e.g., technical, applications, ethics, workshops).";
     agent := program_chair;
     expected_output :=
       "A short document with: (1) conference goals, (2) target audience, " +:+
       "(3) 3â€“4 named tracks with 1â€“2 sentences describing each." |}.

Definition create_track_task (track_designer : Agent) : Task :=
  {| description :=
       "Based on the defined tracks and goals, design 6â€“8 sessions per day " +:+
       "for a 3-day conference. For each session, provide a title, 2â€“3 bullet " +:+
       "points on content, and which track it belongs to.";
     agent := track_designer;
     expected_output :=
       "A list of proposed sessions grouped by track, with titles and brief descriptions." |}.

Definition create_schedule_task (schedule_planner : Agent) : Task :=
  {| description :=
       "Convert the proposed sessions into a concrete 3-day agenda. " +:+
       "Assume each day runs roughly 9:00â€“17:30 with a keynote, " +:+
       "two morning sessions, lunch, two afternoon sessions, and an optional " +:+
       "evening event. Assign sessions to time slots and mention where parallel " +:+
       "tracks exist.";
     agent := schedule_planner;
     expected_output :=
       "A day-by-day agenda (Day 1, Day 2, Day 3) with time slots, session titles, " +:+
       "and indications of parallel tracks when applicable." |}.

Definition create_logistics_task (logistics_agent : Agent) : Task :=
  {| description :=
       "Review the 3-day agenda for issues such as too many parallel sessions, " +:+
       "insufficient breaks, or clustering similar content. Suggest concrete " +:+
       "improvements and provide a final, adjusted agenda.";
     agent := logistics_agent;
     expected_output :=
       "A short critique of the agenda highlighting problems, followed by " +:+
       "an improved agenda layout." |}.

(** The crew that [main] hands to the framework. *)
Definition build_crew (conference_theme : string) : Crew :=
  let program_chair := create_program_chair_agent conference_theme in
  let track_designer := create_track_designer_agent conference_theme in
  let schedule_planner := create_schedule_planner_agent in
  let logistics_agent := create_logistics_agent in
  let program_task := create_program_task program_chair conference_theme in
  let track_task := create_track_task track_designer in
  let schedule_task := create_schedule_task schedule_planner in
  let logistics_task := create_logistics_task logistics_agent in
  {| agents := [program_chair; track_designer; schedule_planner; logistics_agent];
     tasks := [program_task; track_task; schedule_task; logistics_task];
     crew_verbose := Config.VERBOSE g;
     process := "sequential" |}.

(** [main(conference_theme)]. *)
Definition main (conference_theme : string) : M unit :=
  print (str_mul "=" 80) ;;
  print "CrewAI Multi-Agent Conference Agenda Planner (Groq)" ;;
  print (str_mul "=" 80) ;;
  print ("Conference Theme: " +:+ conference_theme) ;;
  print ("Duration: 3 days" +:+ LF) ;;
  (if negb (truthy (Config.GROQ_API_KEY g)) then
     raise (RuntimeError "GROQ_API_KEY is not set in .env.")
   else ret tt) ;;
  setenv "OPENAI_API_KEY" (default "" (Config.GROQ_API_KEY g)) ;;
  setenv "OPENAI_API_BASE" (Config.GROQ_API_BASE g) ;;
  setenv "OPENAI_MODEL_NAME" (Config.GROQ_MODEL g) ;;
  print ("Forming the Conference Planning Crew..." +:+ LF) ;;
  let crew := build_crew conference_theme in
  print ("Starting Crew execution..." +:+ LF) ;;
  result <- kickoff crew {[ "conference_theme" := conference_theme ]} ;;
  print (LF +:+ str_mul "=" 80) ;;
  print "FINAL 3-DAY CONFERENCE AGENDA (SUMMARY)" ;;
  print (str_mul "=" 80) ;;
  print result ;;
  open_w out_path ;;
  write out_path ("CrewAI Exercise 4 - 3-Day Conference Agenda" +:+ LF) ;;
  write out_path (str_mul "=" 80 +:+ LF) ;;
  write out_path ("Conference Theme: " +:+ conference_theme +:+ LF) ;;
  write out_path ("Model (Groq): " +:+ Config.GROQ_MODEL g +:+ LF) ;;
  write out_path ("Generated at: " +:+ now +:+ LF +:+ LF) ;;
  write out_path result ;;
  print (LF +:+ "Saved conference agenda summary to: " +:+ out_path).

End WithFramework.

(** The theme chosen by the [__main__] block from [sys.argv]. *)
Definition theme_of_argv (argv : list string) : string :=
  let theme := "AI in Education" in
  if (1 <? length argv)%nat then join " " (drop 1 argv) else theme.

(** The script: the imports run [config.py], then the [__main__] block
    calls [main] with the chosen theme. *)
Definition script `{Python} (kickoff : Crew -> gmap string string -> M string)
    (now : string) (argv : list string) : M unit :=
  g <- Config.import ;;
  main kickoff now g (theme_of_argv argv).

End Crewai.

(** ** Vocabulary of the statements *)

(** The phase identifiers that have an instruction of their own. *)
Definition recognized : list string := ["literature"; "gaps"; "outline"; "review"].

(** The instruction used for every other identifier. *)
Definition fallback : string := "Summarize the context above in a helpful way.".

(** Two identifiers that differ at most in the case of ASCII letters. *)
Definition same_modulo_case (a b : string) : Prop := ascii_lower a = ascii_lower b.

(** One labelled block of the context: the header line naming the phase in
    upper case, then the stored text. *)
Definition block `{Python} (entry : string * option string) : string :=
  "[" +:+ str_upper entry.1 +:+ " OUTPUT]" +:+ LF +:+ str_content entry.2 +:+ LF.

(** The report of the research-outline program: header, then one section per
    stored output. *)
Definition report_header (topic model : string) : string :=
  "AutoGen Exercise 4 - Research Paper Outline" +:+ LF +:+
  str_mul "=" 80 +:+ LF +:+
  "Topic: " +:+ topic +:+ LF +:+
  "Model: " +:+ model +:+ LF +:+ LF.

(** A stored entry whose content is a text. *)
Definition as_text (entry : string * string) : string * option string :=
  (entry.1, Some entry.2).

(** [d.get(key)] on an insertion-ordered dict. *)
Fixpoint dict_get {V} (d : list (string * V)) (key : string) : option V :=
  match d with
  | [] => None
  | (k, v) :: d' => if String.eqb k key then Some v else dict_get d' key
  end.

Definition report_section (entry : string * string) : string :=
  "--- PHASE: " +:+ entry.1 +:+ " ---" +:+ LF +:+ entry.2 +:+ LF +:+ LF.

Fixpoint concat_str (parts : list string) : string :=
  match parts with
  | [] => ""
  | p :: rest => p +:+ concat_str rest
  end.

(** The header of the conference-agenda report. *)
Definition agenda_header (theme model now : string) : string :=
  "CrewAI Exercise 4 - 3-Day Conference Agenda" +:+ LF +:+
  str_mul "=" 80 +:+ LF +:+
  "Conference Theme: " +:+ theme +:+ LF +:+
  "Model (Groq): " +:+ model +:+ LF +:+
  "Generated at: " +:+ now +:+ LF +:+ LF.

(** The request that [run_phase] builds for a phase whose agent dictionary
    maps ["role"] to [role]. *)
Definition system_prompt `{Python} (role : value) (agent_cfg : gmap string value)
  : string :=
  "You are a " +:+ format_value role +:+ "." +:+ LF +:+ LF +:+
  format_value (default (VStr "") (agent_cfg !! "instructions")) +:+ LF +:+ LF +:+
  "The paper topic is: '" +:+ Autogen.TOPIC +:+ "'.".

Definition phase_request `{Python} (g : Config.globals)
    (self : Autogen.ResearchPaperWorkflow) (phase_name : string)
    (role : value) (agent_cfg : gmap string value) : Request :=
  {| req_model := Autogen.model self;
     req_temperature := agent_cfg !! "temperature";
     req_max_tokens := Config.AGENT_MAX_TOKENS g;
     req_messages :=
       [ {| msg_role := "system"; msg_content := system_prompt role agent_cfg |};
         {| msg_role := "user"; msg_content := Autogen.user_message phase_name |} ] |}.

(** The world just before the request of a phase goes out: only the console
    has moved. *)
Definition announced `{Python} (g : Config.globals)
    (self : Autogen.ResearchPaperWorkflow)
    (phase_name description : string) (w : World) : World :=
  let banner :=
    [LF +:+ str_mul "=" 80;
     "PHASE: " +:+ str_upper description +:+ " (" +:+ phase_name +:+ ")";
     str_mul "=" 80] in
  let shown :=
    if Config.VERBOSE g
    then [LF +:+ "[Context passed to agent]" +:+ LF;
          Autogen.context_text (Autogen.outputs self)]
    else [] in
  {| stdout := (stdout w ++ banner) ++ shown; environ := environ w;
     calls := calls w; files := files w |}.

(** The whole report for the stored outputs [outs]. *)
Definition report (topic model : string) (outs : list (string * string)) : string :=
  report_header topic model +:+ concat_str (map report_section outs).

(** The world once [run] has printed its opening banner. *)
Definition greeted (self : Autogen.ResearchPaperWorkflow) (w : World) : World :=
  fold_left (fun w line => (print line w).1)
    [str_mul "=" 80;
     "AUTOGEN RESEARCH PAPER OUTLINE WORKFLOW (GROQ)";
     str_mul "=" 80;
     "Model: " +:+ Autogen.model self;
     "Paper topic: " +:+ Autogen.TOPIC;
     str_mul "=" 80]
    w.

(** ** Concrete scenarios *)

(** Plain decimal numerals, the only integer texts of the scenarios. *)
Fixpoint decimal_acc (s : string) (acc : Z) : option Z :=
  match s with
  | EmptyString => Some acc
  | String c s' =>
      let n := nat_of_ascii c in
      if ((48 <=? n) && (n <=? 57))%nat
      then decimal_acc s' (10 * acc + Z.of_nat (n - 48))
      else None
  end.

Definition decimal (s : string) : option Z :=
  match s with
  | EmptyString => None
  | _ => decimal_acc s 0
  end.

(** The binary64 nearest to 0.7. *)
Definition float_0_7 : float := 0x3FE6666666666666.

(** A runtime that agrees with CPython on the texts of the scenarios: ASCII
    case mapping, decimal numerals, and the one float text ["0.7"]. *)
Definition scenario_python : Python :=
  {| float_of_str s := if String.eqb s "0.7" then Some float_0_7 else None;
     int_of_str := decimal;
     str_of_float x := if Z.eqb x float_0_7 then "0.7" else "";
     str_upper := ascii_upper;
     str_lower := ascii_lower |}.

(** An endpoint that answers its n-th request with the n-th text of a
    script, and raises once the script is used up. *)
Definition scripted (replies : list string)
  : list Request -> Request -> exn + Response :=
  fun served _ =>
    match replies !! length served with
    | Some text => inr [Some text]
    | None => inl (ExternalError "connection refused")
    end.

Definition empty_world : World :=
  {| stdout := []; environ := ∅; calls := []; files := ∅ |}.

(** A fresh process whose environment only holds the credential. *)
Definition keyed_world : World :=
  {| stdout := []; environ := {[ "GROQ_API_KEY" := "gsk-test" ]};
     calls := []; files := ∅ |}.

(** Module globals with the defaults of [config.py], a credential and a
    quiet console; [phases] is the phase list. *)
Definition quiet_globals (phases : list Config.WorkflowPhase) : Config.globals :=
  {| Config.GROQ_API_KEY := Some "gsk-test";
     Config.GROQ_MODEL := "llama-3.1-8b-instant";
     Config.GROQ_API_BASE := "https://api.groq.com/openai/v1";
     Config.AGENT_TEMPERATURE_DEFAULT := float_0_7;
     Config.AGENT_MAX_TOKENS := 2000;
     Config.AGENT_TIMEOUT := 300;
     Config.VERBOSE := false;
     Config.DEBUG := false;
     Config.WORKFLOW_PHASES := phases |}.

(** A workflow object as [__init__] leaves it. *)
Definition fresh_workflow : Autogen.ResearchPaperWorkflow :=
  {| Autogen.client := "gsk-test"; Autogen.model := "llama-3.1-8b-instant";
     Autogen.outputs := [] |}.

(** Two phases [a] and [b] run in a row on the canned completions X and Y. *)
Definition phase_a : Config.WorkflowPhase :=
  {| Config.name := "a"; Config.description := "First";
     Config.agent_config := {[ "role" := VStr "Writer" ]} |}.

Definition phase_b : Config.WorkflowPhase :=
  {| Config.name := "b"; Config.description := "Second";
     Config.agent_config := {[ "role" := VStr "Critic" ]} |}.

Definition two_phase_run : World * (exn + Autogen.ResearchPaperWorkflow) :=
  Autogen.run_phases (H := scenario_python) (scripted ["X"; "Y"])
    (quiet_globals []) [phase_a; phase_b] fresh_workflow empty_world.

(** The globals that [config.py] yields in [keyed_world], and its first two
    phases run after the banner against an endpoint with two answers. *)
Definition keyed_globals : Config.globals :=
  quiet_globals (Config.phases float_0_7).

Definition two_done : World * (exn + Autogen.ResearchPaperWorkflow) :=
  Autogen.run_phases (H := scenario_python) (scripted ["ALPHA"; "BETA"])
    keyed_globals (take 2 (Config.phases float_0_7)) fresh_workflow
    (greeted fresh_workflow keyed_world).

Definition four_replies : list string := ["ALPHA"; "BETA"; "GAMMA"; "DELTA"].

(** The research-outline script on four canned completions, started with an
    extra command-line argument. *)
Definition outline_run : World * (exn + Autogen.ResearchPaperWorkflow) :=
  Autogen.script (H := scenario_python) (scripted four_replies)
    ["autogen_simple_demo.py"; "Quantum error correction"] keyed_world.

(** The same script against an endpoint that fails on the third request. *)
Definition failing_run : World * (exn + Autogen.ResearchPaperWorkflow) :=
  Autogen.script (H := scenario_python) (scripted ["ALPHA"; "BETA"])
    ["autogen_simple_demo.py"] keyed_world.

(** A framework stub for the conference program: it issues no request and
    returns a fixed agenda. *)
Definition stub_kickoff : Crewai.Crew -> gmap string string -> M string :=
  fun _ _ => ret "AGENDA".

(** ** The phase loop as a replay of the endpoint *)

(** What the loop stores when every phase goes through: each phase in turn
    sends its request, the endpoint answers it knowing the requests served so
    far, and the first choice is kept under the phase name.  [None] when a
    phase has no role, or the endpoint raises or returns no choice. *)
Fixpoint replay `{Python} (endpoint : list Request -> Request -> exn + Response)
    (g : Config.globals) (self : Autogen.ResearchPaperWorkflow)
    (served : list Request) (phases : list Config.WorkflowPhase)
  : option (list (string * option string)) :=
  match phases with
  | [] => Some []
  | phase :: rest =>
      match Config.agent_config phase !! "role" with
      | None => None
      | Some role =>
          let req := phase_request g self (Config.name phase) role
                       (Config.agent_config phase) in
          match endpoint served req with
          | inr (content :: _) =>
              match replay endpoint g self (served ++ [req]) rest with
              | Some stored => Some ((Config.name phase, content) :: stored)
              | None => None
              end
          | _ => None
          end
      end
  end.

(** Storing a list of entries, one assignment after the other. *)
Definition dict_update (d entries : list (string * option string))
  : list (string * option string) :=
  fold_left (fun d entry => dict_set d entry.1 entry.2) entries d.

(** The world in which [main] starts the framework, for a credential
    [key]: the banner is out, the three [OPENAI_*] variables are bound, the
    two progress lines are out. *)
Definition handed_over (g : Config.globals) (key theme : string) (w : World)
  : World :=
  let greeted :=
    fold_left (fun w line => (print line w).1)
      [str_mul "=" 80;
       "CrewAI Multi-Agent Conference Agenda Planner (Groq)";
       str_mul "=" 80;
       "Conference Theme: " +:+ theme;
       "Duration: 3 days" +:+ LF]
      w in
  let bound :=
    (setenv "OPENAI_MODEL_NAME" (Config.GROQ_MODEL g)
       (setenv "OPENAI_API_BASE" (Config.GROQ_API_BASE g)
          (setenv "OPENAI_API_KEY" key greeted).1).1).1 in
  fold_left (fun w line => (print line w).1)
    ["Forming the Conference Planning Crew..." +:+ LF;
     "Starting Crew execution..." +:+ LF]
    bound.

(** ** Further scenarios *)

(** A credential that is set but empty, and a malformed timeout. *)
Definition empty_key_world : World :=
  {| stdout := []; environ := {[ "GROQ_API_KEY" := "" ]};
     calls := []; files := ∅ |}.

Definition bad_timeout_world : World :=
  {| stdout := [];
     environ := <[ "AGENT_TIMEOUT" := "soon" ]> {[ "GROQ_API_KEY" := "gsk-test" ]};
     calls := []; files := ∅ |}.

(** The globals of [quiet_globals] with the console turned on. *)
Definition loud_globals (phases : list Config.WorkflowPhase) : Config.globals :=
  {| Config.GROQ_API_KEY := Some "gsk-test";
     Config.GROQ_MODEL := "llama-3.1-8b-instant";
     Config.GROQ_API_BASE := "https://api.groq.com/openai/v1";
     Config.AGENT_TEMPERATURE_DEFAULT := float_0_7;
     Config.AGENT_MAX_TOKENS := 2000;
     Config.AGENT_TIMEOUT := 300;
     Config.VERBOSE := true;
     Config.DEBUG := false;
     Config.WORKFLOW_PHASES := phases |}.

(** An endpoint whose responses carry no choice. *)
Definition no_choice_endpoint : list Request -> Request -> exn + Response :=
  fun _ _ => inr [].

(** An endpoint whose choices carry no content. *)
Definition null_endpoint : list Request -> Request -> exn + Response :=
  fun _ _ => inr [None].

(** An endpoint that always answers, with the number of requests served so
    far spelled in tally marks. *)
Definition tally_endpoint : list Request -> Request -> exn + Response :=
  fun served _ => inr [Some (str_mul "|" (length served))].

(** A phase whose agent dictionary has a temperature but no role. *)
Definition phase_without_role : Config.WorkflowPhase :=
  {| Config.name := "notes"; Config.description := "Loose notes";
     Config.agent_config := {[ "temperature" := VFloat float_0_7 ]} |}.

(** A second phase that reuses the name of [phase_a]. *)
Definition phase_a_again : Config.WorkflowPhase :=
  {| Config.name := "a"; Config.description := "First, revised";
     Config.agent_config := {[ "role" := VStr "Editor" ]} |}.

(** A third phase, to follow [phase_a] and [phase_b]. *)
Definition phase_c : Config.WorkflowPhase :=
  {| Config.name := "c"; Config.description := "Third";
     Config.agent_config := {[ "role" := VStr "Judge" ]} |}.

(** A framework that gives up. *)
Definition failing_kickoff : Crewai.Crew -> gmap string string -> M string :=
  fun _ _ => raise (ExternalError "rate limit").

(** A world with a credential, a stale report and an unrelated file. *)
Definition used_world : World :=
  {| stdout := []; environ := {[ "GROQ_API_KEY" := "gsk-test" ]};
     calls := [];
     files := <[ Autogen.out_path := "stale" ]> {[ "README.md" := "# demo" ]} |}.

(** * Properties *)

(** ** The state monad *)

Lemma bind_inr {A B} (m : M A) (k : A -> M B) w w1 a :
  m w = (w1, inr a) -> bind m k w = k a w1.
Proof. intros Hm. unfold bind. now rewrite Hm. Qed.

Lemma bind_inl {A B} (m : M A) (k : A -> M B) w w1 e :
  m w = (w1, inl e) -> bind m k w = (w1, inl e).
Proof. intros Hm. unfold bind. now rewrite Hm. Qed.

(** A successful [bind] splits into its two halves. *)
Lemma bind_inr_inv {A B} (m : M A) (k : A -> M B) w w2 b :
  bind m k w = (w2, inr b) ->
  exists w1 a, m w = (w1, inr a) /\ k a w1 = (w2, inr b).
Proof.
  unfold bind. destruct (m w) as [w1 [e | a]]; intros Hk.
  - discriminate.
  - now exists w1, a.
Qed.

(** A failed [bind] failed in one of its two halves. *)
Lemma bind_inl_inv {A B} (m : M A) (k : A -> M B) w w2 e :
  bind m k w = (w2, inl e) ->
  m w = (w2, inl e) \/ exists w1 a, m w = (w1, inr a) /\ k a w1 = (w2, inl e).
Proof.
  unfold bind. destruct (m w) as [w1 [e1 | a]]; intros Hk.
  - left. now inversion Hk.
  - right. now exists w1, a.
Qed.

(** ** One phase *)

Section PhaseFacts.
Context `{Python}.
Variable endpoint : list Request -> Request -> exn + Response.
Variable g : Config.globals.

(** [run_phase] in closed form, for an agent dictionary with a role. *)
Lemma run_phase_unfold self phase_name description agent_cfg role w :
  agent_cfg !! "role" = Some role ->
  Autogen.run_phase endpoint g self phase_name description agent_cfg w =
  let req := phase_request g self phase_name role agent_cfg in
  let w1 := announced g self phase_name description w in
  let w2 := {| stdout := stdout w1; environ := environ w1;
               calls := calls w ++ [req]; files := files w |} in
  match endpoint (calls w) req with
  | inl e => (w2, inl e)
  | inr [] => (w2, inl IndexError)
  | inr (content :: _) =>
      ({| stdout := stdout w1 ++ [LF +:+ "[Agent output]" +:+ LF;
                                  str_content content];
          environ := environ w; calls := calls w ++ [req]; files := files w |},
       inr {| Autogen.client := Autogen.client self;
              Autogen.model := Autogen.model self;
              Autogen.outputs :=
                dict_set (Autogen.outputs self) phase_name content |})
  end.
Proof.
  intros Hrole.
  unfold Autogen.run_phase, announced, phase_request, system_prompt, getitem.
  rewrite Hrole.
  unfold bind, print, ret, raise, Autogen.create, Autogen.first_choice; simpl.
  destruct (Config.VERBOSE g); simpl;
    destruct (endpoint (calls w) _) as [e | [| content rest]]; simpl;
    rewrite <- ?app_assoc; reflexivity.
Qed.

(** Without a role the phase stops at the [KeyError], before any request. *)
Lemma run_phase_no_role self phase_name description agent_cfg w :
  agent_cfg !! "role" = None ->
  exists w', Autogen.run_phase endpoint g self phase_name description agent_cfg w
               = (w', inl (KeyError "role"))
             /\ calls w' = calls w /\ files w' = files w.
Proof.
  intros Hrole. unfold Autogen.run_phase, getitem. rewrite Hrole.
  unfold bind, print, raise; simpl. eexists; split; [reflexivity | now simpl].
Qed.

(** With a role, exactly the request of the phase is added to the log,
    whatever the endpoint does with it. *)
Lemma run_phase_calls self phase_name description agent_cfg role w :
  agent_cfg !! "role" = Some role ->
  calls (Autogen.run_phase endpoint g self phase_name description agent_cfg w).1
  = calls w ++ [phase_request g self phase_name role agent_cfg].
Proof.
  intros Hrole. rewrite (run_phase_unfold _ _ _ _ role) by exact Hrole.
  cbv zeta.
  destruct (endpoint (calls w) _) as [e | [| content rest]]; reflexivity.
Qed.

(** A phase never touches the files. *)
Lemma run_phase_files self phase_name description agent_cfg w :
  files (Autogen.run_phase endpoint g self phase_name description agent_cfg w).1
  = files w.
Proof.
  destruct (agent_cfg !! "role") as [role |] eqn:Hrole.
  - rewrite (run_phase_unfold _ _ _ _ role) by exact Hrole. cbv zeta.
    destruct (endpoint (calls w) _) as [e | [| content rest]]; reflexivity.
  - destruct (run_phase_no_role self phase_name description agent_cfg w Hrole)
      as (w' & -> & _ & Hfiles).
    exact Hfiles.
Qed.

(** A phase that succeeds had a role, got a first choice from the endpoint
    and stored it under its name. *)
Lemma run_phase_inr self phase_name description agent_cfg w w' self' :
  Autogen.run_phase endpoint g self phase_name description agent_cfg w
  = (w', inr self') ->
  exists role content rest,
    agent_cfg !! "role" = Some role /\
    endpoint (calls w) (phase_request g self phase_name role agent_cfg)
      = inr (content :: rest) /\
    calls w' = calls w ++ [phase_request g self phase_name role agent_cfg] /\
    files w' = files w /\
    Autogen.client self' = Autogen.client self /\
    Autogen.model self' = Autogen.model self /\
    Autogen.outputs self' = dict_set (Autogen.outputs self) phase_name content.
Proof.
  intros Hrun.
  destruct (agent_cfg !! "role") as [role |] eqn:Hrole.
  - rewrite (run_phase_unfold _ _ _ _ role) in Hrun by exact Hrole.
    cbv zeta in Hrun.
    destruct (endpoint (calls w) _) as [e | [| content rest]] eqn:Hanswer;
      try discriminate.
    injection Hrun as <- <-.
    exists role, content, rest. repeat split; try reflexivity; assumption.
  - destruct (run_phase_no_role self phase_name description agent_cfg w Hrole)
      as (w0 & Hraise & _).
    rewrite Hraise in Hrun. discriminate.
Qed.

End PhaseFacts.

(** ** Instruction selection *)

(** Outside the four recognised identifiers every comparison of the chain
    fails and the last branch is taken. *)
Lemma user_message_unrecognized phase_name :
  ~ In phase_name recognized -> Autogen.user_message phase_name = fallback.
Proof.
  intros Hnot. unfold Autogen.user_message.
  destruct (String.eqb_spec phase_name "literature") as [-> | _];
    [exfalso; apply Hnot; simpl; tauto |].
  destruct (String.eqb_spec phase_name "gaps") as [-> | _];
    [exfalso; apply Hnot; simpl; tauto |].
  destruct (String.eqb_spec phase_name "outline") as [-> | _];
    [exfalso; apply Hnot; simpl; tauto |].
  destruct (String.eqb_spec phase_name "review") as [-> | _];
    [exfalso; apply Hnot; simpl; tauto |].
  reflexivity.
Qed.

(** Each recognised identifier has an instruction other than the fallback. *)
Lemma user_message_recognized key :
  In key recognized -> Autogen.user_message key <> fallback.
Proof.
  intros Hin Heq. simpl in Hin.
  destruct Hin as [<- | [<- | [<- | [<- | []]]]];
    vm_compute in Heq; discriminate.
Qed.

(** The four identifiers are in lower case, so no two of them differ only in
    case. *)
Lemma recognized_lower key : In key recognized -> ascii_lower key = key.
Proof.
  simpl. intros [<- | [<- | [<- | [<- | []]]]]; reflexivity.
Qed.

(** C2: for every phase identifier outside literature, gaps, outline and
    review, the phase executor does not raise (given an agent dictionary with
    a role and an endpoint that answers with at least one choice): it issues
    its request with the fallback text, verbatim, as the user message. *)
Theorem unknown_phase_uses_fallback `{Python}
    (endpoint : list Request -> Request -> exn + Response) (g : Config.globals)
    (self : Autogen.ResearchPaperWorkflow) (phase_name description : string)
    (agent_cfg : gmap string value) (role : value) (w : World) :
  ~ In phase_name recognized ->
  agent_cfg !! "role" = Some role ->
  (forall req, exists content rest, endpoint (calls w) req = inr (content :: rest)) ->
  Autogen.user_message phase_name = fallback /\
  exists w' self' system,
    Autogen.run_phase endpoint g self phase_name description agent_cfg w
      = (w', inr self') /\
    calls w' = calls w ++
      [ {| req_model := Autogen.model self;
           req_temperature := agent_cfg !! "temperature";
           req_max_tokens := Config.AGENT_MAX_TOKENS g;
           req_messages :=
             [ {| msg_role := "system"; msg_content := system |};
               {| msg_role := "user";
                  msg_content := "Summarize the context above in a helpful way." |} ] |} ].
Proof.
  intros Hunknown Hrole Hanswers.
  pose proof (user_message_unrecognized phase_name Hunknown) as Hmsg.
  split; [exact Hmsg |].
  rewrite (run_phase_unfold endpoint g self phase_name description agent_cfg role w Hrole).
  cbv zeta.
  destruct (Hanswers (phase_request g self phase_name role agent_cfg))
    as (content & rest & ->).
  do 3 eexists. split; [reflexivity |].
  simpl. unfold phase_request. rewrite Hmsg. reflexivity.
Qed.

Lemma unknown_phase_uses_fallback_witness :
  Autogen.user_message "summary" = fallback /\
  exists w' self' system,
    Autogen.run_phase (H := scenario_python) (scripted four_replies)
      (quiet_globals []) fresh_workflow
      "summary" "Wrap up" {[ "role" := VStr "Editor" ]} empty_world
      = (w', inr self') /\
    calls w' = calls empty_world ++
      [ {| req_model := "llama-3.1-8b-instant";
           req_temperature := ({[ "role" := VStr "Editor" ]} : gmap string value) !! "temperature";
           req_max_tokens := 2000;
           req_messages :=
             [ {| msg_role := "system"; msg_content := system |};
               {| msg_role := "user";
                  msg_content := "Summarize the context above in a helpful way." |} ] |} ].
Proof.
  apply (unknown_phase_uses_fallback (H := scenario_python)) with (role := VStr "Editor").
  - simpl. intros [Heq | [Heq | [Heq | [Heq | []]]]]; discriminate.
  - reflexivity.
  - intros req. exists (Some "ALPHA"), []. reflexivity.
Defined.

(** C9: the lookup compares identifiers exactly.  An identifier that differs
    from a recognised key, even if only in letter case, gets the fallback
    text and not the instruction of that key. *)
Theorem lookup_is_case_sensitive (phase_name key : string) :
  In key recognized ->
  phase_name <> key ->
  same_modulo_case phase_name key ->
  Autogen.user_message phase_name = fallback /\
  Autogen.user_message phase_name <> Autogen.user_message key.
Proof.
  intros Hkey Hdiff Hcase.
  assert (Hunknown : ~ In phase_name recognized).
  { intros Hin. apply Hdiff.
    rewrite <- (recognized_lower phase_name Hin), <- (recognized_lower key Hkey).
    exact Hcase. }
  pose proof (user_message_unrecognized phase_name Hunknown) as Hmsg.
  split; [exact Hmsg |].
  rewrite Hmsg. intros Heq. symmetry in Heq.
  exact (user_message_recognized key Hkey Heq).
Qed.

Lemma lookup_is_case_sensitive_witness :
  (Autogen.user_message "Literature" = fallback /\
   Autogen.user_message "Literature" <> Autogen.user_message "literature") /\
  (Autogen.user_message "LITERATURE" = fallback /\
   Autogen.user_message "LITERATURE" <> Autogen.user_message "literature").
Proof.
  split; apply lookup_is_case_sensitive;
    solve [ simpl; tauto | discriminate | reflexivity ].
Defined.

(** C10: the temperature is read with [agent_cfg.get("temperature")].  For a
    phase whose agent dictionary has no such key the request goes out with
    temperature [None], not with [AGENT_TEMPERATURE_DEFAULT]. *)
Theorem missing_temperature_sends_none `{Python}
    (endpoint : list Request -> Request -> exn + Response) (g : Config.globals)
    (self : Autogen.ResearchPaperWorkflow) (phase_name description : string)
    (agent_cfg : gmap string value) (role : value) (w : World) :
  agent_cfg !! "temperature" = None ->
  agent_cfg !! "role" = Some role ->
  exists req,
    calls (Autogen.run_phase endpoint g self phase_name description agent_cfg w).1
      = calls w ++ [req] /\
    req_temperature req = None /\
    req_temperature req <> Some (VFloat (Config.AGENT_TEMPERATURE_DEFAULT g)).
Proof.
  intros Htemp Hrole.
  exists (phase_request g self phase_name role agent_cfg).
  split; [now apply run_phase_calls |].
  unfold phase_request; simpl. rewrite Htemp. split; [reflexivity | discriminate].
Qed.

Lemma missing_temperature_sends_none_witness :
  exists req,
    calls (Autogen.run_phase (H := scenario_python) (scripted four_replies)
             (quiet_globals []) fresh_workflow
             "literature" "Survey" {[ "role" := VStr "Reader" ]} empty_world).1
      = calls empty_world ++ [req] /\
    req_temperature req = None /\
    req_temperature req <> Some (VFloat float_0_7).
Proof.
  apply (missing_temperature_sends_none (H := scenario_python))
    with (role := VStr "Reader"); reflexivity.
Defined.

(** Reading back what an assignment stored, and what it left alone. *)
Lemma dict_get_set_eq {V} (d : list (string * V)) (key : string) (v : V) :
  dict_get (dict_set d key v) key = Some v.
Proof.
  induction d as [| [k old] d IH]; simpl.
  - now rewrite String.eqb_refl.
  - destruct (String.eqb_spec k key) as [-> | Hne]; simpl.
    + now rewrite String.eqb_refl.
    + destruct (String.eqb_spec k key) as [-> | _]; [contradiction | exact IH].
Qed.

Lemma dict_get_set_ne {V} (d : list (string * V)) (key other : string) (v : V) :
  other <> key -> dict_get (dict_set d key v) other = dict_get d other.
Proof.
  intros Hother. induction d as [| [k old] d IH]; simpl.
  - destruct (String.eqb_spec key other) as [-> | _]; [contradiction | reflexivity].
  - destruct (String.eqb_spec k key) as [-> | Hne]; simpl.
    + destruct (String.eqb_spec key other) as [-> | _]; [contradiction | reflexivity].
    + destruct (String.eqb_spec k other); [reflexivity | exact IH].
Qed.

(** C7: a phase issues exactly one completion request, whatever the
    endpoint then does.  The request carries the model of the workflow, the
    temperature configured in the agent dictionary, the [AGENT_MAX_TOKENS]
    budget and two messages: the system instruction built from role,
    instructions and topic, then the user instruction of the phase.  When
    the phase succeeds, the content of the first returned choice is what the
    workflow holds under the phase name afterwards, every other name holds
    what it held before, and an existing entry keeps its place. *)
Theorem one_request_per_phase `{Python}
    (endpoint : list Request -> Request -> exn + Response) (g : Config.globals)
    (self : Autogen.ResearchPaperWorkflow) (phase_name description : string)
    (agent_cfg : gmap string value) (role : value) (w : World) :
  agent_cfg !! "role" = Some role ->
  let req :=
    {| req_model := Autogen.model self;
       req_temperature := agent_cfg !! "temperature";
       req_max_tokens := Config.AGENT_MAX_TOKENS g;
       req_messages :=
         [ {| msg_role := "system";
              msg_content :=
                "You are a " +:+ format_value role +:+ "." +:+ LF +:+ LF +:+
                format_value (default (VStr "") (agent_cfg !! "instructions")) +:+
                LF +:+ LF +:+
                "The paper topic is: '" +:+ Autogen.TOPIC +:+ "'." |};
           {| msg_role := "user";
              msg_content := Autogen.user_message phase_name |} ] |} in
  calls (Autogen.run_phase endpoint g self phase_name description agent_cfg w).1
    = calls w ++ [req] /\
  forall self',
    (Autogen.run_phase endpoint g self phase_name description agent_cfg w).2
      = inr self' ->
    exists content rest,
      endpoint (calls w) req = inr (content :: rest) /\
      dict_get (Autogen.outputs self') phase_name = Some content /\
      (forall other, other <> phase_name ->
         dict_get (Autogen.outputs self') other
         = dict_get (Autogen.outputs self) other) /\
      Autogen.outputs self' = dict_set (Autogen.outputs self) phase_name content.
Proof.
  intros Hrole req.
  split; [now apply run_phase_calls |].
  intros self' Hok.
  destruct (Autogen.run_phase endpoint g self phase_name description agent_cfg w)
    as [w' r] eqn:Hrun.
  simpl in Hok. subst r.
  destruct (run_phase_inr _ _ _ _ _ _ _ _ _ Hrun)
    as (role' & content & rest & Hrole' & Hanswer & _ & _ & _ & _ & Houts).
  assert (role' = role) by congruence. subst role'.
  exists content, rest. split; [exact Hanswer |]. rewrite Houts.
  split; [apply dict_get_set_eq |]. split; [| reflexivity].
  intros other Hother. now apply dict_get_set_ne.
Qed.

Lemma one_request_per_phase_witness :
  Autogen.run_phase (H := scenario_python) (scripted four_replies)
    (quiet_globals [])
    {| Autogen.client := "gsk-test"; Autogen.model := "llama-3.1-8b-instant";
       Autogen.outputs := [("literature", Some "OLD"); ("gaps", None)] |}
    "gaps" "Gaps" (Config.GAP_AGENT float_0_7) empty_world
  = ((Autogen.run_phase (H := scenario_python) (scripted four_replies)
        (quiet_globals [])
        {| Autogen.client := "gsk-test"; Autogen.model := "llama-3.1-8b-instant";
           Autogen.outputs := [("literature", Some "OLD"); ("gaps", None)] |}
        "gaps" "Gaps" (Config.GAP_AGENT float_0_7) empty_world).1,
     inr {| Autogen.client := "gsk-test"; Autogen.model := "llama-3.1-8b-instant";
            Autogen.outputs := [("literature", Some "OLD");
                                ("gaps", Some "ALPHA")] |}) /\
  let req :=
    {| req_model := "llama-3.1-8b-instant";
       req_temperature := Some (VFloat float_0_7);
       req_max_tokens := 2000;
       req_messages :=
         [ {| msg_role := "system";
              msg_content :=
                "You are a Research Gap Analyst." +:+ LF +:+ LF +:+
                "You read the literature summary and identify gaps, tensions, and " +:+
                "promising research directions. You propose 2–3 concrete research " +:+
                "questions or hypotheses that a new paper could address." +:+
                LF +:+ LF +:+
                "The paper topic is: 'How multi-agent AI systems can support " +:+
                "human decision-making'." |};
           {| msg_role := "user";
              msg_content :=
                "Based on the literature review, identify gaps or open problems. " +:+
                "Propose 2–3 concrete research questions or hypotheses that a " +:+
                "new paper could address." |} ] |} in
  calls (Autogen.run_phase (H := scenario_python) (scripted four_replies)
           (quiet_globals [])
           {| Autogen.client := "gsk-test"; Autogen.model := "llama-3.1-8b-instant";
              Autogen.outputs := [("literature", Some "OLD"); ("gaps", None)] |}
           "gaps" "Gaps" (Config.GAP_AGENT float_0_7) empty_world).1
    = calls empty_world ++ [req] /\
  forall self',
    (Autogen.run_phase (H := scenario_python) (scripted four_replies)
       (quiet_globals [])
       {| Autogen.client := "gsk-test"; Autogen.model := "llama-3.1-8b-instant";
          Autogen.outputs := [("literature", Some "OLD"); ("gaps", None)] |}
       "gaps" "Gaps" (Config.GAP_AGENT float_0_7) empty_world).2
      = inr self' ->
    exists content rest,
      scripted four_replies (calls empty_world) req = inr (content :: rest) /\
      dict_get (Autogen.outputs self') "gaps" = Some content /\
      (forall other, other <> "gaps" ->
         dict_get (Autogen.outputs self') other
         = dict_get [("literature", Some "OLD"); ("gaps", None)] other) /\
      Autogen.outputs self'
      = dict_set [("literature", Some "OLD"); ("gaps", None)] "gaps" content.
Proof.
  split; [vm_compute; reflexivity |].
  refine (one_request_per_phase (H := scenario_python) (scripted four_replies)
            (quiet_globals [])
            {| Autogen.client := "gsk-test";
               Autogen.model := "llama-3.1-8b-instant";
               Autogen.outputs := [("literature", Some "OLD"); ("gaps", None)] |}
            "gaps" "Gaps" (Config.GAP_AGENT float_0_7)
            (VStr "Research Gap Analyst") empty_world _).
  vm_compute. reflexivity.
Defined.

(** ** The context block *)

Lemma append_assoc (a b c : string) : (a +:+ b) +:+ c = a +:+ (b +:+ c).
Proof.
  induction a as [| ch a IH].
  - reflexivity.
  - change (String ch ((a +:+ b) +:+ c) = String ch (a +:+ (b +:+ c))).
    now rewrite IH.
Qed.

Lemma append_nil_r (a : string) : a +:+ "" = a.
Proof.
  induction a as [| ch a IH]; [reflexivity |].
  change (String ch (a +:+ "") = String ch a). now rewrite IH.
Qed.

(** Joining two non-empty lists of parts puts one separator between them. *)
Lemma join_app (sep : string) (before after : list string) :
  before <> [] -> after <> [] ->
  join sep (before ++ after) = join sep before +:+ sep +:+ join sep after.
Proof.
  intros Hbefore Hafter. induction before as [| p before IH]; [contradiction |].
  destruct before as [| q before].
  - destruct after; [contradiction | reflexivity].
  - change (join sep ((p :: q :: before) ++ after))
      with (p +:+ sep +:+ join sep ((q :: before) ++ after)).
    rewrite IH by discriminate.
    change (join sep (p :: q :: before)) with (p +:+ sep +:+ join sep (q :: before)).
    now rewrite !append_assoc.
Qed.

(** A join followed by the separator is each part followed by it. *)
Lemma join_terminated (sep : string) (parts : list string) :
  parts <> [] ->
  join sep parts +:+ sep = concat_str (map (fun part => part +:+ sep) parts).
Proof.
  intros Hparts. induction parts as [| p parts IH]; [contradiction |].
  destruct parts as [| q parts].
  - simpl. now rewrite append_nil_r.
  - change (join sep (p :: q :: parts)) with (p +:+ sep +:+ join sep (q :: parts)).
    rewrite !append_assoc, IH by discriminate.
    change (concat_str (map (fun part => part +:+ sep) (p :: q :: parts)))
      with ((p +:+ sep) +:+ concat_str (map (fun part => part +:+ sep) (q :: parts))).
    now rewrite append_assoc.
Qed.

Section ContextFacts.
Context `{Python}.

(** The appending loop produces one block per entry, in the order of the
    entries. *)
Lemma context_chunks_from (outs : list (string * option string))
    (chunks : list string) :
  fold_left
    (fun chunks '(prev_name, content) =>
       chunks ++ ["[" +:+ str_upper prev_name +:+ " OUTPUT]" +:+ LF +:+
                  str_content content +:+ LF])
    outs chunks
  = chunks ++ map block outs.
Proof.
  revert chunks. induction outs as [| [prev_name content] outs IH]; intros chunks.
  - simpl. now rewrite app_nil_r.
  - simpl. rewrite IH, <- app_assoc. reflexivity.
Qed.

Lemma context_chunks_blocks (outs : list (string * option string)) :
  Autogen.context_chunks outs = map block outs.
Proof. unfold Autogen.context_chunks. now rewrite context_chunks_from. Qed.

Lemma context_text_blocks (outs : list (string * option string)) :
  Autogen.context_text outs =
  match outs with
  | [] => "No prior context yet."
  | _ => join LF (map block outs)
  end.
Proof.
  unfold Autogen.context_text. rewrite context_chunks_blocks.
  destruct outs; reflexivity.
Qed.

(** The context of a single entry is its block. *)
Lemma context_text_single (phase_name : string) (content : option string) :
  Autogen.context_text [(phase_name, content)] =
  "[" +:+ str_upper phase_name +:+ " OUTPUT]" +:+ LF +:+ str_content content +:+ LF.
Proof. reflexivity. Qed.

(** The context of a list in two non-empty parts is the context of the
    first part, an empty line, the context of the second. *)
Lemma context_text_app (before after : list (string * option string)) :
  before <> [] -> after <> [] ->
  Autogen.context_text (before ++ after) =
  Autogen.context_text before +:+ LF +:+ Autogen.context_text after.
Proof.
  intros Hbefore Hafter. rewrite !context_text_blocks.
  destruct before as [| b before]; [contradiction |].
  destruct after as [| a after]; [contradiction |].
  change ((b :: before) ++ a :: after) with (b :: (before ++ a :: after)).
  cbv iota.
  change (b :: (before ++ a :: after)) with ((b :: before) ++ a :: after).
  rewrite map_app. apply join_app; discriminate.
Qed.

(** Followed by a newline, the context of a non-empty list is every block
    followed by a newline, in the order of the entries. *)
Lemma context_text_terminated (outs : list (string * option string)) :
  outs <> [] ->
  Autogen.context_text outs +:+ LF
  = concat_str (map (fun entry => block entry +:+ LF) outs).
Proof.
  intros Houts. rewrite context_text_blocks.
  destruct outs as [| e outs]; [contradiction |].
  rewrite join_terminated by discriminate. now rewrite map_map.
Qed.

End ContextFacts.

(** C5: the context is rendered from the stored outputs, one block per entry
    in insertion order, each a header line with the phase name in upper case
    followed by the stored text.  Nothing stored gives the placeholder; one
    entry gives its header line, its text and a newline; a list in two parts
    gives the context of the first part, an empty line and the context of the
    second.  For phases [A; B], the executor of [B] receives the single entry
    that [A] stored, some content [X], and the context it renders is the [A]
    header line followed by [X]; when the two names differ, the context
    rendered after [B] is that block, an empty line and the block of [B]. *)
Theorem context_block_rendering `{Python}
    (endpoint : list Request -> Request -> exn + Response) (g : Config.globals)
    (self : Autogen.ResearchPaperWorkflow) (A B : Config.WorkflowPhase)
    (w w2 : World) (self2 : Autogen.ResearchPaperWorkflow) :
  Autogen.outputs self = [] ->
  Autogen.run_phases endpoint g [A; B] self w = (w2, inr self2) ->
  (Autogen.context_text [] = "No prior context yet." /\
   (forall phase_name content,
      Autogen.context_text [(phase_name, content)] =
      "[" +:+ str_upper phase_name +:+ " OUTPUT]" +:+ LF +:+
      str_content content +:+ LF) /\
   (forall before after,
      before <> [] -> after <> [] ->
      Autogen.context_text (before ++ after) =
      Autogen.context_text before +:+ LF +:+ Autogen.context_text after)) /\
  exists X Y w1 self1,
    Autogen.run_phase endpoint g self (Config.name A) (Config.description A)
      (Config.agent_config A) w = (w1, inr self1) /\
    Autogen.run_phase endpoint g self1 (Config.name B) (Config.description B)
      (Config.agent_config B) w1 = (w2, inr self2) /\
    Autogen.outputs self1 = [(Config.name A, X)] /\
    Autogen.context_text (Autogen.outputs self1) =
      "[" +:+ str_upper (Config.name A) +:+ " OUTPUT]" +:+ LF +:+
      str_content X +:+ LF /\
    (Config.name A <> Config.name B ->
     Autogen.outputs self2 = [(Config.name A, X); (Config.name B, Y)] /\
     Autogen.context_text (Autogen.outputs self2) =
       ("[" +:+ str_upper (Config.name A) +:+ " OUTPUT]" +:+ LF +:+
        str_content X +:+ LF) +:+ LF +:+
       ("[" +:+ str_upper (Config.name B) +:+ " OUTPUT]" +:+ LF +:+
        str_content Y +:+ LF)).
Proof.
  intros Hfresh Hrun.
  split; [split; [reflexivity | split; [exact context_text_single |
                                        exact context_text_app]] |].
  simpl in Hrun.
  apply bind_inr_inv in Hrun as (w1 & self1 & HA & Hrest).
  apply bind_inr_inv in Hrest as (w2' & self2' & HB & Hret).
  injection Hret as <- <-.
  destruct (run_phase_inr _ _ _ _ _ _ _ _ _ HA)
    as (roleA & X & restA & _ & _ & _ & _ & _ & _ & HoutsA).
  destruct (run_phase_inr _ _ _ _ _ _ _ _ _ HB)
    as (roleB & Y & restB & _ & _ & _ & _ & _ & _ & HoutsB).
  rewrite Hfresh in HoutsA. simpl in HoutsA.
  exists X, Y, w1, self1. repeat split; try assumption.
  - rewrite HoutsA. reflexivity.
  - rewrite HoutsB, HoutsA. simpl.
    destruct (String.eqb_spec (Config.name A) (Config.name B)); [contradiction |].
    reflexivity.
  - rewrite HoutsB, HoutsA. simpl.
    destruct (String.eqb_spec (Config.name A) (Config.name B)); [contradiction |].
    reflexivity.
Qed.

Lemma context_block_rendering_witness :
  Autogen.context_text (H := scenario_python)
    [("a", Some "X"); ("b", None); ("c", Some "Z")]
  = "[A OUTPUT]" +:+ LF +:+ "X" +:+ LF +:+ LF +:+
    "[B OUTPUT]" +:+ LF +:+ "None" +:+ LF +:+ LF +:+
    "[C OUTPUT]" +:+ LF +:+ "Z" +:+ LF /\
  two_phase_run.2
  = inr {| Autogen.client := "gsk-test"; Autogen.model := "llama-3.1-8b-instant";
           Autogen.outputs := [("a", Some "X"); ("b", Some "Y")] |} /\
  (Autogen.context_text (H := scenario_python) [] = "No prior context yet." /\
   (forall phase_name content,
      Autogen.context_text (H := scenario_python) [(phase_name, content)] =
      "[" +:+ ascii_upper phase_name +:+ " OUTPUT]" +:+ LF +:+
      str_content content +:+ LF) /\
   (forall before after,
      before <> [] -> after <> [] ->
      Autogen.context_text (H := scenario_python) (before ++ after) =
      Autogen.context_text (H := scenario_python) before +:+ LF +:+
      Autogen.context_text (H := scenario_python) after)) /\
  exists X Y w1 self1,
    Autogen.run_phase (H := scenario_python) (scripted ["X"; "Y"])
      (quiet_globals []) fresh_workflow "a" "First" {[ "role" := VStr "Writer" ]}
      empty_world = (w1, inr self1) /\
    Autogen.run_phase (H := scenario_python) (scripted ["X"; "Y"])
      (quiet_globals []) self1 "b" "Second" {[ "role" := VStr "Critic" ]}
      w1 = (two_phase_run.1,
            inr {| Autogen.client := "gsk-test";
                   Autogen.model := "llama-3.1-8b-instant";
                   Autogen.outputs := [("a", Some "X"); ("b", Some "Y")] |}) /\
    Autogen.outputs self1 = [("a", X)] /\
    Autogen.context_text (H := scenario_python) (Autogen.outputs self1) =
      "[" +:+ ascii_upper "a" +:+ " OUTPUT]" +:+ LF +:+ str_content X +:+ LF /\
    ("a" <> "b" ->
     [("a", Some "X"); ("b", Some "Y")] = [("a", X); ("b", Y)] /\
     Autogen.context_text (H := scenario_python)
       [("a", Some "X"); ("b", Some "Y")] =
       ("[" +:+ ascii_upper "a" +:+ " OUTPUT]" +:+ LF +:+ str_content X +:+ LF)
       +:+ LF +:+
       ("[" +:+ ascii_upper "b" +:+ " OUTPUT]" +:+ LF +:+ str_content Y +:+ LF)).
Proof.
  split; [vm_compute; reflexivity |]. split; [vm_compute; reflexivity |].
  refine (context_block_rendering (H := scenario_python) (scripted ["X"; "Y"])
            (quiet_globals []) fresh_workflow phase_a phase_b empty_world
            two_phase_run.1
            {| Autogen.client := "gsk-test";
               Autogen.model := "llama-3.1-8b-instant";
               Autogen.outputs := [("a", Some "X"); ("b", Some "Y")] |}
            eq_refl _).
  vm_compute. reflexivity.
Defined.

(** ** The driver *)

Lemma bind_print {B} (s : string) (k : unit -> M B) (w : World) :
  bind (print s) k w = k tt (print s w).1.
Proof. reflexivity. Qed.

Lemma bind_open_w {B} (name : string) (k : unit -> M B) (w : World) :
  bind (open_w name) k w = k tt (open_w name w).1.
Proof. reflexivity. Qed.

Lemma bind_write {B} (name s : string) (k : unit -> M B) (w : World) :
  bind (write name s) k w = k tt (write name s w).1.
Proof. reflexivity. Qed.

(** A new key goes to the end of the dict. *)
Lemma dict_set_fresh {V} (d : list (string * V)) (key : string) (v : V) :
  ~ In key (map fst d) -> map fst (dict_set d key v) = map fst d ++ [key].
Proof.
  induction d as [| [k old] d IH]; intros Hfresh.
  - reflexivity.
  - simpl in *. destruct (String.eqb_spec k key) as [-> | Hne].
    + exfalso. apply Hfresh. now left.
    + simpl. f_equal. apply IH. tauto.
Qed.

(** Stored outputs are all texts, or there is a first [None] among them. *)
Lemma outputs_texts_or_none (outs : list (string * option string)) :
  (exists sections, outs = map as_text sections) \/
  (exists sections phase_name rest,
     outs = map as_text sections ++ (phase_name, None) :: rest).
Proof.
  induction outs as [| [phase_name [text |]] outs IH].
  - left. now exists [].
  - destruct IH as [(sections & ->) | (sections & n & rest & ->)].
    + left. now exists ((phase_name, text) :: sections).
    + right. now exists ((phase_name, text) :: sections), n, rest.
  - right. now exists [], phase_name, outs.
Qed.

(** Over texts the section loop goes through and appends one section per
    entry to the open report. *)
Lemma write_sections_texts (sections : list (string * string)) (w : World) :
  (Autogen.write_sections (map as_text sections) w).2 = inr tt /\
  files (Autogen.write_sections (map as_text sections) w).1 !! Autogen.out_path =
    (fun old => old +:+ concat_str (map report_section sections))
      <$> files w !! Autogen.out_path.
Proof.
  revert w. induction sections as [| [phase_name text] sections IH]; intros w.
  - simpl. split; [reflexivity |].
    destruct (files w !! Autogen.out_path) as [old |]; simpl; [| reflexivity].
    now rewrite append_nil_r.
  - cbn [map as_text fst snd Autogen.write_sections write_content].
    rewrite !bind_write.
    match goal with
    | |- context [Autogen.write_sections _ ?w0] =>
        destruct (IH w0) as (Hres & Hfiles)
    end.
    split; [exact Hres |].
    rewrite Hfiles. cbn [write fst files]. rewrite !lookup_alter_eq.
    destruct (files w !! Autogen.out_path) as [old |]; simpl; [| reflexivity].
    f_equal. unfold report_section; simpl. now rewrite !append_assoc.
Qed.

(** At the first [None] the section loop raises [TypeError]; the report
    then holds the sections before it and the delimiter line of the entry
    that could not be written. *)
Lemma write_sections_none (sections : list (string * string))
    (phase_name : string) (rest : list (string * option string)) (w : World) :
  (Autogen.write_sections (map as_text sections ++ (phase_name, None) :: rest) w).2
    = inl (TypeError "write() argument must be str, not None") /\
  files (Autogen.write_sections
           (map as_text sections ++ (phase_name, None) :: rest) w).1
    !! Autogen.out_path =
    (fun old => old +:+ concat_str (map report_section sections) +:+
                "--- PHASE: " +:+ phase_name +:+ " ---" +:+ LF)
      <$> files w !! Autogen.out_path.
Proof.
  revert w. induction sections as [| [n text] sections IH]; intros w.
  - cbn [map app Autogen.write_sections write_content]. rewrite bind_write.
    split; [reflexivity |].
    cbn [bind raise write fst files]. now rewrite lookup_alter_eq.
  - cbn [map app as_text fst snd Autogen.write_sections write_content].
    rewrite !bind_write.
    match goal with
    | |- context [Autogen.write_sections _ ?w0] =>
        destruct (IH w0) as (Hres & Hfiles)
    end.
    split; [exact Hres |].
    rewrite Hfiles. cbn [write fst files]. rewrite !lookup_alter_eq.
    destruct (files w !! Autogen.out_path) as [old |]; simpl; [| reflexivity].
    f_equal. unfold report_section; simpl. now rewrite !append_assoc.
Qed.

(** Whatever it meets, the section loop issues no request and touches
    neither the environment nor any other file. *)
Lemma write_sections_frame (outs : list (string * option string)) (w : World) :
  calls (Autogen.write_sections outs w).1 = calls w /\
  environ (Autogen.write_sections outs w).1 = environ w /\
  forall name, name <> Autogen.out_path ->
    files (Autogen.write_sections outs w).1 !! name = files w !! name.
Proof.
  revert w. induction outs as [| [phase_name [text |]] outs IH]; intros w.
  - repeat split.
  - cbn [Autogen.write_sections write_content]. rewrite !bind_write.
    match goal with
    | |- context [Autogen.write_sections outs ?w0] =>
        destruct (IH w0) as (Hcalls & Henv & Hfiles)
    end.
    split; [exact Hcalls |]. split; [exact Henv |].
    intros name Hname. rewrite (Hfiles name Hname). cbn [write fst files].
    now rewrite !lookup_alter_ne by congruence.
  - cbn [Autogen.write_sections write_content]. rewrite bind_write.
    cbn [bind raise write fst calls environ files].
    repeat split. intros name Hname. now rewrite lookup_alter_ne by congruence.
Qed.

Section RunFacts.
Context `{Python}.
Variable endpoint : list Request -> Request -> exn + Response.
Variable g : Config.globals.

(** The phase loop never touches the files. *)
Lemma run_phases_files phases self w :
  files (Autogen.run_phases endpoint g phases self w).1 = files w.
Proof.
  revert self w. induction phases as [| phase rest IH]; intros self w.
  - reflexivity.
  - simpl. unfold bind.
    pose proof (run_phase_files endpoint g self (Config.name phase)
                  (Config.description phase) (Config.agent_config phase) w) as Hstep.
    destruct (Autogen.run_phase endpoint g self (Config.name phase)
                (Config.description phase) (Config.agent_config phase) w)
      as [w1 [e | self1]]; simpl in Hstep.
    + exact Hstep.
    + now rewrite IH.
Qed.

(** A loop that completes leaves the model alone and has stored one entry
    per phase, in the order of the phases, when their names are new and
    pairwise distinct. *)
Lemma run_phases_inr phases self w w' self' :
  Autogen.run_phases endpoint g phases self w = (w', inr self') ->
  Autogen.model self' = Autogen.model self /\
  length (calls w') = (length (calls w) + length phases)%nat /\
  (NoDup (map fst (Autogen.outputs self) ++ map Config.name phases) ->
   map fst (Autogen.outputs self') =
   map fst (Autogen.outputs self) ++ map Config.name phases).
Proof.
  revert self w. induction phases as [| phase rest IH]; intros self w Hrun.
  - simpl in Hrun. injection Hrun as <- <-.
    repeat split; [simpl; lia |]. intros _. simpl. now rewrite app_nil_r.
  - simpl in Hrun. apply bind_inr_inv in Hrun as (w1 & self1 & Hstep & Hrest).
    destruct (run_phase_inr _ _ _ _ _ _ _ _ _ Hstep)
      as (role & content & more & _ & _ & Hcalls & _ & _ & Hmodel & Houts).
    destruct (IH _ _ Hrest) as (Hmodel' & Hcalls' & Hnames).
    split; [congruence |]. split.
    + rewrite Hcalls', Hcalls, length_app. simpl. lia.
    + intros Hnodup. simpl in Hnodup.
      assert (Hfresh : ~ In (Config.name phase) (map fst (Autogen.outputs self))).
      { intros Hin. apply NoDup_ListNoDup, List.NoDup_remove_2 in Hnodup.
        apply Hnodup, in_or_app. now left. }
      rewrite Hnames; rewrite Houts, dict_set_fresh by exact Hfresh.
      * rewrite <- app_assoc. reflexivity.
      * rewrite <- app_assoc. exact Hnodup.
Qed.

(** [run] is the phase loop, started after the banner; when the loop raises,
    so does [run], in the world the loop left. *)
Lemma run_inl self w w1 e :
  Autogen.run_phases endpoint g (Config.WORKFLOW_PHASES g) self (greeted self w)
  = (w1, inl e) ->
  Autogen.run endpoint g self w = (w1, inl e).
Proof.
  intros Hloop. unfold Autogen.run. rewrite !bind_print.
  apply bind_inl. exact Hloop.
Qed.

(** When the loop completes, [run] opens the report, writes the header and
    runs the section loop; nothing but the report has changed by then. *)
Lemma run_after_loop self w w1 self1 :
  Autogen.run_phases endpoint g (Config.WORKFLOW_PHASES g) self (greeted self w)
  = (w1, inr self1) ->
  exists w2,
    files w2 !! Autogen.out_path
      = Some (report_header Autogen.TOPIC (Autogen.model self1)) /\
    (forall name, name <> Autogen.out_path -> files w2 !! name = files w1 !! name) /\
    calls w2 = calls w1 /\
    environ w2 = environ w1 /\
    Autogen.run endpoint g self w =
    bind (Autogen.write_sections (Autogen.outputs self1))
      (fun _ =>
         bind (print (LF +:+ "Saved full workflow output to: " +:+ Autogen.out_path))
              (fun _ => ret self1)) w2.
Proof.
  intros Hloop. unfold Autogen.run. rewrite !bind_print.
  rewrite (bind_inr _ _ _ _ _ Hloop).
  rewrite !bind_print, bind_open_w, !bind_write.
  eexists. split; [| split; [| split; [| split; [| reflexivity]]]].
  - cbn [print write open_w fst files].
    rewrite !lookup_alter_eq, lookup_insert_eq. reflexivity.
  - intros name Hname. cbn [print write open_w fst files].
    now rewrite !lookup_alter_ne, lookup_insert_ne by congruence.
  - reflexivity.
  - reflexivity.
Qed.

(** When the loop completes and has stored texts only, [run] completes too
    and the report holds the header and one section per stored text. *)
Lemma run_inr self w w1 self1 sections :
  Autogen.run_phases endpoint g (Config.WORKFLOW_PHASES g) self (greeted self w)
  = (w1, inr self1) ->
  Autogen.outputs self1 = map as_text sections ->
  exists w',
    Autogen.run endpoint g self w = (w', inr self1) /\
    calls w' = calls w1 /\
    environ w' = environ w1 /\
    files w' !! Autogen.out_path =
      Some (report Autogen.TOPIC (Autogen.model self1) sections) /\
    forall name, name <> Autogen.out_path -> files w' !! name = files w1 !! name.
Proof.
  intros Hloop Htexts.
  destruct (run_after_loop _ _ _ _ Hloop)
    as (w2 & Hheader & Hother & Hcalls & Henv & ->).
  rewrite Htexts.
  destruct (write_sections_texts sections w2) as (Hres & Hfiles).
  destruct (write_sections_frame (map as_text sections) w2)
    as (Hcalls' & Henv' & Hframe).
  destruct (Autogen.write_sections (map as_text sections) w2) as [w3 r] eqn:Hsections.
  cbn [fst snd] in *. subst r.
  rewrite (bind_inr _ _ _ _ _ Hsections), bind_print.
  eexists. split; [reflexivity |]. cbn [print fst calls environ files].
  split; [congruence |]. split; [congruence |]. split.
  - rewrite Hfiles, Hheader. reflexivity.
  - intros name Hname. rewrite (Hframe name Hname). now apply Hother.
Qed.

(** When the loop completes but has stored a [None], [run] raises
    [TypeError] while writing; the report is left with the header, the
    sections before the [None] and one more delimiter line. *)
Lemma run_none self w w1 self1 sections phase_name rest :
  Autogen.run_phases endpoint g (Config.WORKFLOW_PHASES g) self (greeted self w)
  = (w1, inr self1) ->
  Autogen.outputs self1 = map as_text sections ++ (phase_name, None) :: rest ->
  exists w',
    Autogen.run endpoint g self w
      = (w', inl (TypeError "write() argument must be str, not None")) /\
    calls w' = calls w1 /\
    environ w' = environ w1 /\
    files w' !! Autogen.out_path =
      Some (report Autogen.TOPIC (Autogen.model self1) sections +:+
            "--- PHASE: " +:+ phase_name +:+ " ---" +:+ LF) /\
    forall name, name <> Autogen.out_path -> files w' !! name = files w1 !! name.
Proof.
  intros Hloop Hnone.
  destruct (run_after_loop _ _ _ _ Hloop)
    as (w2 & Hheader & Hother & Hcalls & Henv & ->).
  rewrite Hnone.
  destruct (write_sections_none sections phase_name rest w2) as (Hres & Hfiles).
  destruct (write_sections_frame
              (map as_text sections ++ (phase_name, None) :: rest) w2)
    as (Hcalls' & Henv' & Hframe).
  destruct (Autogen.write_sections _ w2) as [w3 r] eqn:Hsections.
  cbn [fst snd] in *. subst r.
  rewrite (bind_inl _ _ _ _ _ Hsections).
  exists w3. split; [reflexivity |].
  split; [congruence |]. split; [congruence |]. split.
  - rewrite Hfiles, Hheader. simpl. f_equal. unfold report.
    now rewrite !append_assoc.
  - intros name Hname. rewrite (Hframe name Hname). now apply Hother.
Qed.

(** A completed [run] had a completed loop that stored texts only. *)
Lemma run_inr_inv self w w' self' :
  Autogen.run endpoint g self w = (w', inr self') ->
  exists w1 sections,
    Autogen.run_phases endpoint g (Config.WORKFLOW_PHASES g) self (greeted self w)
      = (w1, inr self') /\
    Autogen.outputs self' = map as_text sections /\
    calls w' = calls w1 /\
    environ w' = environ w1 /\
    files w' !! Autogen.out_path =
      Some (report Autogen.TOPIC (Autogen.model self') sections) /\
    forall name, name <> Autogen.out_path -> files w' !! name = files w1 !! name.
Proof.
  intros Hrun.
  destruct (Autogen.run_phases endpoint g (Config.WORKFLOW_PHASES g) self
              (greeted self w)) as [w1 [e | self1]] eqn:Hloop.
  { rewrite (run_inl _ _ _ _ Hloop) in Hrun. discriminate. }
  destruct (outputs_texts_or_none (Autogen.outputs self1))
    as [(sections & Htexts) | (sections & n & rest & Hnone)].
  - destruct (run_inr _ _ _ _ _ Hloop Htexts)
      as (w2 & Hok & Hcalls & Henv & Hreport & Hother).
    rewrite Hok in Hrun. injection Hrun as <- <-.
    now exists w1, sections.
  - destruct (run_none _ _ _ _ _ _ _ Hloop Hnone) as (w2 & Hfail & _).
    rewrite Hfail in Hrun. discriminate.
Qed.

End RunFacts.

(** The loop over a concatenation runs the first part, then the second. *)
Lemma run_phases_app `{Python}
    (endpoint : list Request -> Request -> exn + Response) (g : Config.globals)
    (done rest : list Config.WorkflowPhase)
    (self : Autogen.ResearchPaperWorkflow) (w : World) :
  Autogen.run_phases endpoint g (done ++ rest) self w =
  bind (Autogen.run_phases endpoint g done self)
       (fun self1 => Autogen.run_phases endpoint g rest self1) w.
Proof.
  revert self w. induction done as [| phase done IH]; intros self w.
  - reflexivity.
  - simpl. unfold bind.
    destruct (Autogen.run_phase endpoint g self (Config.name phase)
                (Config.description phase) (Config.agent_config phase) w)
      as [w1 [e | self1]]; [reflexivity |].
    rewrite IH. reflexivity.
Qed.

(** C4: the report is written only after all phases.  When the completion
    call of some phase raises, after the phases before it went through, the
    exception comes out of [run], the later phases issue no request and the
    files are exactly those of the start: no report is written. *)
Theorem failed_phase_writes_no_report `{Python}
    (endpoint : list Request -> Request -> exn + Response) (g : Config.globals)
    (self : Autogen.ResearchPaperWorkflow) (w : World)
    (done : list Config.WorkflowPhase) (phase : Config.WorkflowPhase)
    (rest : list Config.WorkflowPhase)
    (w1 : World) (self1 : Autogen.ResearchPaperWorkflow) (role : value) (e : exn) :
  Config.WORKFLOW_PHASES g = done ++ phase :: rest ->
  Autogen.run_phases endpoint g done self (greeted self w) = (w1, inr self1) ->
  Config.agent_config phase !! "role" = Some role ->
  endpoint (calls w1)
    (phase_request g self1 (Config.name phase) role (Config.agent_config phase))
    = inl e ->
  exists w',
    Autogen.run endpoint g self w = (w', inl e) /\
    files w' = files w /\
    length (calls w') = (length (calls w) + length done + 1)%nat.
Proof.
  intros Hsplit Hdone Hrole Hraise.
  assert (Hloop : exists w',
            Autogen.run_phases endpoint g (Config.WORKFLOW_PHASES g) self
              (greeted self w) = (w', inl e) /\
            calls w' = calls w1 ++
              [phase_request g self1 (Config.name phase) role
                 (Config.agent_config phase)]).
  { rewrite Hsplit, run_phases_app, (bind_inr _ _ _ _ _ Hdone).
    cbn [Autogen.run_phases].
    rewrite (bind_inl _ _ w1
               (Autogen.run_phase endpoint g self1 (Config.name phase)
                  (Config.description phase) (Config.agent_config phase) w1).1 e).
    - eexists. split; [reflexivity |]. now apply run_phase_calls.
    - rewrite (run_phase_unfold endpoint g self1 _ _ _ role w1 Hrole).
      cbv zeta. rewrite Hraise. reflexivity. }
  destruct Hloop as (w' & Hloop & Hcalls).
  exists w'. split; [now apply run_inl |]. split.
  - exact (eq_trans (eq_sym (f_equal (fun r => files r.1) Hloop))
             (run_phases_files endpoint g _ self (greeted self w))).
  - destruct (run_phases_inr endpoint g _ _ _ _ _ Hdone) as (_ & Hcount & _).
    rewrite Hcalls, length_app, Hcount. simpl. lia.
Qed.

Lemma failed_phase_writes_no_report_witness :
  exists w',
    Autogen.run (H := scenario_python) (scripted ["ALPHA"; "BETA"])
      keyed_globals fresh_workflow keyed_world
      = (w', inl (ExternalError "connection refused")) /\
    files w' = files keyed_world /\
    length (calls w') = (length (calls keyed_world) + 2 + 1)%nat.
Proof.
  refine (failed_phase_writes_no_report (H := scenario_python)
            (scripted ["ALPHA"; "BETA"]) keyed_globals fresh_workflow keyed_world
            (take 2 (Config.phases float_0_7))
            {| Config.name := "outline";
               Config.description := "Design structured paper outline";
               Config.agent_config := Config.OUTLINE_AGENT float_0_7 |}
            (drop 3 (Config.phases float_0_7))
            two_done.1
            {| Autogen.client := "gsk-test";
               Autogen.model := "llama-3.1-8b-instant";
               Autogen.outputs := [("literature", Some "ALPHA");
                                   ("gaps", Some "BETA")] |}
            (VStr "Research Paper Outline Designer")
            (ExternalError "connection refused") eq_refl _ _ _).
  - vm_compute. reflexivity.
  - vm_compute. reflexivity.
  - vm_compute. reflexivity.
Defined.

(** The whole script against an endpoint that fails on the third request:
    the failure ends the process, three requests went out, no file exists. *)
Example failing_run_leaves_no_report :
  failing_run.2 = inl (ExternalError "connection refused") /\
  length (calls failing_run.1) = 3%nat /\
  files failing_run.1 = ∅.
Proof. repeat split; vm_compute; reflexivity. Qed.

(** ** The scripts *)

Section ScriptFacts.
Context `{Python}.

(** Importing [config.py] reads the environment and changes nothing; the
    key it yields is the one of the environment. *)
Lemma import_world (w : World) : (Config.import w).1 = w.
Proof.
  unfold Config.import, bind, Config.getenv, Config.getenv_default,
    Config.to_float, Config.to_int, ret, raise; simpl.
  destruct (float_of_str _); [| reflexivity].
  destruct (int_of_str _); [| reflexivity].
  destruct (int_of_str _); reflexivity.
Qed.

Lemma import_key (w : World) (g : Config.globals) :
  (Config.import w).2 = inr g ->
  Config.GROQ_API_KEY g = environ w !! "GROQ_API_KEY" /\
  Config.GROQ_MODEL g = default "llama-3.1-8b-instant" (environ w !! "GROQ_MODEL").
Proof.
  unfold Config.import, bind, Config.getenv, Config.getenv_default,
    Config.to_float, Config.to_int, ret, raise; simpl.
  destruct (float_of_str _); [| discriminate].
  destruct (int_of_str _); [| discriminate].
  destruct (int_of_str _); [| discriminate].
  simpl. intros [= <-]. split; reflexivity.
Qed.

(** The import as a pair. *)
Lemma import_eq (w : World) : Config.import w = (w, (Config.import w).2).
Proof.
  rewrite <- (import_world w) at 2. now destruct (Config.import w).
Qed.

End ScriptFacts.

(** C3: with [GROQ_API_KEY] unset, both scripts end in an exception before
    any phase or task runs.  The research-outline script leaves the world
    untouched; the conference script has only printed its banner.  No
    completion request is issued and no file is written.  Once [config.py]
    has loaded, the exception is the [RuntimeError] of the constructor,
    respectively of [main]. *)
Theorem missing_key_stops_before_any_call `{Python}
    (endpoint : list Request -> Request -> exn + Response)
    (kickoff : Crewai.Crew -> gmap string string -> M string)
    (now : string) (argv : list string) (w : World) :
  environ w !! "GROQ_API_KEY" = None ->
  (exists e, Autogen.script endpoint argv w = (w, inl e)) /\
  (exists e w',
     Crewai.script kickoff now argv w = (w', inl e) /\
     calls w' = calls w /\ files w' = files w /\ environ w' = environ w) /\
  (forall g, (Config.import w).2 = inr g ->
     (forall model_arg,
        Autogen.__init__ g model_arg w =
        (w, inl (RuntimeError "GROQ_API_KEY is not set in .env."))) /\
     (Autogen.script endpoint argv w).2 =
       inl (RuntimeError "GROQ_API_KEY is not set in .env.") /\
     (Crewai.script kickoff now argv w).2 =
       inl (RuntimeError "GROQ_API_KEY is not set in .env.")).
Proof.
  intros Hunset.
  unfold Autogen.script, Crewai.script.
  destruct (Config.import w).2 as [e | g] eqn:Himport.
  - (* config.py itself failed *)
    assert (Hfail : Config.import w = (w, inl e))
      by (rewrite import_eq, Himport; reflexivity).
    rewrite !(bind_inl _ _ _ _ _ Hfail).
    split; [now exists e |]. split; [now exists e, w |].
    intros g Hg. discriminate.
  - assert (Hok : Config.import w = (w, inr g))
      by (rewrite import_eq, Himport; reflexivity).
    destruct (import_key w g Himport) as (Hkey & _). rewrite Hunset in Hkey.
    rewrite !(bind_inr _ _ _ _ _ Hok).
    assert (Hinit : forall model_arg,
              Autogen.__init__ g model_arg w =
              (w, inl (RuntimeError "GROQ_API_KEY is not set in .env."))).
    { intros model_arg. unfold Autogen.__init__. rewrite Hkey. reflexivity. }
    assert (Hmain : exists w',
              Crewai.main kickoff now g (Crewai.theme_of_argv argv) w =
              (w', inl (RuntimeError "GROQ_API_KEY is not set in .env.")) /\
              calls w' = calls w /\ files w' = files w /\ environ w' = environ w).
    { unfold Crewai.main. rewrite !bind_print, Hkey.
      eexists. split; [reflexivity |]. repeat split. }
    destruct Hmain as (w' & Hmain & Hcalls & Hfiles & Henv).
    rewrite (bind_inl _ _ _ _ _ (Hinit None)).
    split; [eexists; reflexivity |]. split.
    + exists (RuntimeError "GROQ_API_KEY is not set in .env."), w'.
      now rewrite Hmain.
    + intros g' Hg'. injection Hg' as <-.
      split; [exact Hinit |]. split; [reflexivity |]. now rewrite Hmain.
Qed.

Lemma missing_key_stops_before_any_call_witness :
  (exists e,
     Autogen.script (H := scenario_python) (scripted four_replies)
       ["demo.py"] empty_world = (empty_world, inl e)) /\
  (exists e w',
     Crewai.script (H := scenario_python) stub_kickoff "2025-01-01 09:00:00"
       ["demo.py"] empty_world = (w', inl e) /\
     calls w' = calls empty_world /\ files w' = files empty_world /\
     environ w' = environ empty_world) /\
  (forall g, (Config.import (H := scenario_python) empty_world).2 = inr g ->
     (forall model_arg,
        Autogen.__init__ g model_arg empty_world =
        (empty_world, inl (RuntimeError "GROQ_API_KEY is not set in .env."))) /\
     (Autogen.script (H := scenario_python) (scripted four_replies)
        ["demo.py"] empty_world).2 =
       inl (RuntimeError "GROQ_API_KEY is not set in .env.") /\
     (Crewai.script (H := scenario_python) stub_kickoff "2025-01-01 09:00:00"
        ["demo.py"] empty_world).2 =
       inl (RuntimeError "GROQ_API_KEY is not set in .env.")).
Proof.
  apply (missing_key_stops_before_any_call (H := scenario_python)).
  reflexivity.
Defined.

Section ConfigFacts.
Context `{Python}.

(** The import in closed form. *)
Lemma import_unfold (w : World) :
  (Config.import w).2 =
  let temperature_text := default "0.7" (environ w !! "AGENT_TEMPERATURE") in
  let max_tokens_text := default "2000" (environ w !! "AGENT_MAX_TOKENS") in
  let timeout_text := default "300" (environ w !! "AGENT_TIMEOUT") in
  match float_of_str temperature_text with
  | None => inl (ValueError temperature_text)
  | Some temperature =>
      match int_of_str max_tokens_text with
      | None => inl (ValueError max_tokens_text)
      | Some max_tokens =>
          match int_of_str timeout_text with
          | None => inl (ValueError timeout_text)
          | Some timeout =>
              inr {| Config.GROQ_API_KEY := environ w !! "GROQ_API_KEY";
                     Config.GROQ_MODEL :=
                       default "llama-3.1-8b-instant" (environ w !! "GROQ_MODEL");
                     Config.GROQ_API_BASE := "https://api.groq.com/openai/v1";
                     Config.AGENT_TEMPERATURE_DEFAULT := temperature;
                     Config.AGENT_MAX_TOKENS := max_tokens;
                     Config.AGENT_TIMEOUT := timeout;
                     Config.VERBOSE :=
                       String.eqb (str_lower (default "True" (environ w !! "VERBOSE")))
                                  "true";
                     Config.DEBUG :=
                       String.eqb (str_lower (default "False" (environ w !! "DEBUG")))
                                  "true";
                     Config.WORKFLOW_PHASES := Config.phases temperature |}
          end
      end
  end.
Proof.
  unfold Config.import, bind, Config.getenv, Config.getenv_default,
    Config.to_float, Config.to_int, ret, raise; simpl.
  destruct (float_of_str _); [| reflexivity].
  destruct (int_of_str _); [| reflexivity].
  destruct (int_of_str _); reflexivity.
Qed.

(** The phases of a loaded configuration are the four of [config.py], all
    with the loaded temperature. *)
Lemma import_phases (w : World) (g : Config.globals) :
  (Config.import w).2 = inr g ->
  Config.WORKFLOW_PHASES g = Config.phases (Config.AGENT_TEMPERATURE_DEFAULT g).
Proof.
  rewrite import_unfold. cbv zeta.
  destruct (float_of_str _); [| discriminate].
  destruct (int_of_str _); [| discriminate].
  destruct (int_of_str _); [| discriminate].
  intros [= <-]. reflexivity.
Qed.

End ConfigFacts.

(** Each configured phase has a recognised name, a role and the common
    temperature. *)
Lemma phases_configured (temperature : float) (phase : Config.WorkflowPhase) :
  In phase (Config.phases temperature) ->
  In (Config.name phase) recognized /\
  Config.agent_config phase !! "temperature" = Some (VFloat temperature) /\
  exists role, Config.agent_config phase !! "role" = Some (VStr role).
Proof.
  simpl. intros [<- | [<- | [<- | [<- | []]]]];
    (split; [simpl; tauto |]); (split; [reflexivity | eexists; reflexivity]).
Qed.

(** The constructor with a usable credential. *)
Lemma init_with_key (g : Config.globals) (key : string)
    (model_arg : option string) (w : World) :
  Config.GROQ_API_KEY g = Some key ->
  key <> "" ->
  Autogen.__init__ g model_arg w =
  (w, inr {| Autogen.client := key;
             Autogen.model := default (Config.GROQ_MODEL g) model_arg;
             Autogen.outputs := [] |}).
Proof.
  intros Hkey Hne. unfold Autogen.__init__. rewrite Hkey. simpl.
  destruct (String.eqb_spec key "") as [-> | _]; [contradiction | reflexivity].
Qed.

(** A script that completes had a loaded configuration and ran a fresh
    workflow whose model is [GROQ_MODEL]. *)
Lemma script_inr_inv `{Python}
    (endpoint : list Request -> Request -> exn + Response)
    (argv : list string) (w w' : World) (self' : Autogen.ResearchPaperWorkflow) :
  Autogen.script endpoint argv w = (w', inr self') ->
  exists g key,
    (Config.import w).2 = inr g /\
    Autogen.run endpoint g
      {| Autogen.client := key; Autogen.model := Config.GROQ_MODEL g;
         Autogen.outputs := [] |} w = (w', inr self').
Proof.
  unfold Autogen.script. intros Hrun.
  apply bind_inr_inv in Hrun as (w0 & g & Himport & Hrun).
  assert (w0 = w) by (rewrite import_eq in Himport; congruence). subst w0.
  apply bind_inr_inv in Hrun as (w1 & self & Hinit & Hrun).
  exists g. unfold Autogen.__init__ in Hinit.
  destruct (negb (truthy (Config.GROQ_API_KEY g))); [discriminate |].
  injection Hinit as <- <-. eexists. split; [now rewrite Himport | exact Hrun].
Qed.

(** C6 as stated fails: the research-outline program was started with the
    topic "Quantum error correction" on its command line and completed, and
    the header of its report names the built-in topic; the supplied one is
    not in it. *)
Lemma supplied_topic_not_in_header :
  files outline_run.1 !! Autogen.out_path =
    Some (report_header Autogen.TOPIC "llama-3.1-8b-instant" +:+
          concat_str
            (map report_section
               [("literature", "ALPHA"); ("gaps", "BETA");
                ("outline", "GAMMA"); ("review", "DELTA")])) /\
  contains "Quantum error correction"
    (report_header Autogen.TOPIC "llama-3.1-8b-instant") = false /\
  report_header Autogen.TOPIC "llama-3.1-8b-instant"
  <> report_header "Quantum error correction" "llama-3.1-8b-instant".
Proof.
  split; [vm_compute; reflexivity |]. split; [vm_compute; reflexivity |].
  intros Heq. vm_compute in Heq. discriminate.
Qed.

(** C6 (amended): the report of a completed run holds the header (title,
    rule, the built-in topic [TOPIC], the model of the workflow) and then,
    for each phase in execution order, the delimiter line with the phase
    name and the text stored for it.  This holds for a fresh workflow over
    any phases with pairwise distinct names; and for the script, whatever
    its command line: it takes no topic at invocation, its model is
    [GROQ_MODEL] and its sections are literature, gaps, outline, review. *)
Theorem report_layout `{Python}
    (endpoint : list Request -> Request -> exn + Response) :
  (forall (g : Config.globals) (self : Autogen.ResearchPaperWorkflow)
          (w w' : World) (self' : Autogen.ResearchPaperWorkflow),
     Autogen.outputs self = [] ->
     NoDup (map Config.name (Config.WORKFLOW_PHASES g)) ->
     Autogen.run endpoint g self w = (w', inr self') ->
     exists sections,
       Autogen.outputs self' = map (fun entry => (entry.1, Some entry.2)) sections /\
       map fst sections = map Config.name (Config.WORKFLOW_PHASES g) /\
       files w' !! Autogen.out_path =
         Some (("AutoGen Exercise 4 - Research Paper Outline" +:+ LF +:+
                str_mul "=" 80 +:+ LF +:+
                "Topic: " +:+ Autogen.TOPIC +:+ LF +:+
                "Model: " +:+ Autogen.model self +:+ LF +:+ LF) +:+
               concat_str
                 (map (fun entry => "--- PHASE: " +:+ entry.1 +:+ " ---" +:+ LF +:+
                                    entry.2 +:+ LF +:+ LF)
                      sections))) /\
  (forall (argv : list string) (w w' : World)
          (self' : Autogen.ResearchPaperWorkflow),
     Autogen.script endpoint argv w = (w', inr self') ->
     exists g sections,
       (Config.import w).2 = inr g /\
       Autogen.outputs self' = map (fun entry => (entry.1, Some entry.2)) sections /\
       map fst sections = ["literature"; "gaps"; "outline"; "review"] /\
       files w' !! Autogen.out_path =
         Some (("AutoGen Exercise 4 - Research Paper Outline" +:+ LF +:+
                str_mul "=" 80 +:+ LF +:+
                "Topic: " +:+
                "How multi-agent AI systems can support human decision-making" +:+
                LF +:+
                "Model: " +:+ Config.GROQ_MODEL g +:+ LF +:+ LF) +:+
               concat_str
                 (map (fun entry => "--- PHASE: " +:+ entry.1 +:+ " ---" +:+ LF +:+
                                    entry.2 +:+ LF +:+ LF)
                      sections))).
Proof.
  assert (Hlayout :
    forall (g : Config.globals) (self : Autogen.ResearchPaperWorkflow)
           (w w' : World) (self' : Autogen.ResearchPaperWorkflow),
      Autogen.outputs self = [] ->
      NoDup (map Config.name (Config.WORKFLOW_PHASES g)) ->
      Autogen.run endpoint g self w = (w', inr self') ->
      exists sections,
        Autogen.outputs self' = map as_text sections /\
        map fst sections = map Config.name (Config.WORKFLOW_PHASES g) /\
        files w' !! Autogen.out_path =
          Some (report Autogen.TOPIC (Autogen.model self) sections)).
  { intros g self w w' self' Hfresh Hnodup Hrun.
    destruct (run_inr_inv _ _ _ _ _ _ Hrun)
      as (w1 & sections & Hloop & Htexts & _ & _ & Hreport & _).
    destruct (run_phases_inr _ _ _ _ _ _ _ Hloop) as (Hmodel & _ & Hnames).
    exists sections. split; [exact Htexts |]. split.
    - rewrite Hfresh in Hnames. specialize (Hnames Hnodup). simpl in Hnames.
      rewrite <- Hnames, Htexts, map_map. reflexivity.
    - now rewrite Hreport, Hmodel. }
  split; [exact Hlayout |].
  intros argv w w' self' Hrun.
  destruct (script_inr_inv _ _ _ _ _ Hrun) as (g & key & Himport & Hrun').
  pose proof (import_phases w g Himport) as Hphases.
  assert (Hnodup : NoDup (map Config.name (Config.WORKFLOW_PHASES g))).
  { rewrite Hphases. apply (bool_decide_unpack _). vm_compute. exact I. }
  destruct (fun fresh => Hlayout g _ w w' self' fresh Hnodup Hrun')
    as (sections & Htexts & Hnames & Hreport); [reflexivity |].
  exists g, sections. split; [exact Himport |]. split; [exact Htexts |].
  split; [now rewrite Hnames, Hphases | exact Hreport].
Qed.

Lemma report_layout_witness :
  (exists sections,
     [("literature", Some "ALPHA"); ("gaps", Some "BETA");
      ("outline", Some "GAMMA"); ("review", Some "DELTA")]
     = map (fun entry : string * string => (entry.1, Some entry.2)) sections /\
     map fst sections = map Config.name (Config.WORKFLOW_PHASES keyed_globals) /\
     files (Autogen.run (H := scenario_python) (scripted four_replies)
              keyed_globals fresh_workflow used_world).1 !! Autogen.out_path =
       Some (("AutoGen Exercise 4 - Research Paper Outline" +:+ LF +:+
              str_mul "=" 80 +:+ LF +:+
              "Topic: " +:+ Autogen.TOPIC +:+ LF +:+
              "Model: " +:+ "llama-3.1-8b-instant" +:+ LF +:+ LF) +:+
             concat_str
               (map (fun entry => "--- PHASE: " +:+ entry.1 +:+ " ---" +:+ LF +:+
                                  entry.2 +:+ LF +:+ LF)
                    sections))) /\
  (exists g sections,
     (Config.import (H := scenario_python) keyed_world).2 = inr g /\
     [("literature", Some "ALPHA"); ("gaps", Some "BETA");
      ("outline", Some "GAMMA"); ("review", Some "DELTA")]
     = map (fun entry : string * string => (entry.1, Some entry.2)) sections /\
     map fst sections = ["literature"; "gaps"; "outline"; "review"] /\
     files outline_run.1 !! Autogen.out_path =
       Some (("AutoGen Exercise 4 - Research Paper Outline" +:+ LF +:+
              str_mul "=" 80 +:+ LF +:+
              "Topic: " +:+
              "How multi-agent AI systems can support human decision-making" +:+
              LF +:+
              "Model: " +:+ Config.GROQ_MODEL g +:+ LF +:+ LF) +:+
             concat_str
               (map (fun entry => "--- PHASE: " +:+ entry.1 +:+ " ---" +:+ LF +:+
                                  entry.2 +:+ LF +:+ LF)
                    sections))).
Proof.
  split.
  - refine (proj1 (report_layout (H := scenario_python) (scripted four_replies))
              keyed_globals fresh_workflow used_world
              (Autogen.run (H := scenario_python) (scripted four_replies)
                 keyed_globals fresh_workflow used_world).1
              {| Autogen.client := "gsk-test";
                 Autogen.model := "llama-3.1-8b-instant";
                 Autogen.outputs :=
                   [("literature", Some "ALPHA"); ("gaps", Some "BETA");
                    ("outline", Some "GAMMA"); ("review", Some "DELTA")] |}
              eq_refl _ _).
    + apply (bool_decide_unpack _). vm_compute. exact I.
    + vm_compute. reflexivity.
  - refine (proj2 (report_layout (H := scenario_python) (scripted four_replies))
              ["autogen_simple_demo.py"; "Quantum error correction"] keyed_world
              outline_run.1
              {| Autogen.client := "gsk-test";
                 Autogen.model := "llama-3.1-8b-instant";
                 Autogen.outputs :=
                   [("literature", Some "ALPHA"); ("gaps", Some "BETA");
                    ("outline", Some "GAMMA"); ("review", Some "DELTA")] |} _).
    vm_compute. reflexivity.
Defined.

Lemma bind_setenv {B} (key val : string) (k : unit -> M B) (w : World) :
  bind (setenv key val) k w = k tt (setenv key val w).1.
Proof. reflexivity. Qed.

(** A completed [main] had a credential, ran the crew built for its theme
    and wrote the agenda header followed by the result. *)
Lemma crewai_main_inr
    (kickoff : Crewai.Crew -> gmap string string -> M string)
    (now : string) (g : Config.globals) (theme : string) (w w' : World) :
  Crewai.main kickoff now g theme w = (w', inr tt) ->
  exists w0 w1 result,
    kickoff (Crewai.build_crew g theme) {[ "conference_theme" := theme ]} w0
      = (w1, inr result) /\
    files w' !! Crewai.out_path =
      Some (agenda_header theme (Config.GROQ_MODEL g) now +:+ result).
Proof.
  unfold Crewai.main. rewrite !bind_print.
  destruct (truthy (Config.GROQ_API_KEY g)); simpl negb; cbv iota.
  2: { intros Hrun. apply bind_inr_inv in Hrun as (? & ? & Hraise & _).
       discriminate. }
  intros Hrun. apply bind_inr_inv in Hrun as (w5 & [] & _ & Hrun).
  rewrite !bind_setenv, !bind_print in Hrun.
  apply bind_inr_inv in Hrun as (w1 & result & Hkick & Hrun).
  rewrite !bind_print, bind_open_w, !bind_write in Hrun.
  injection Hrun as <-.
  eexists _, w1, result. split; [exact Hkick |].
  cbn [print write open_w fst files].
  rewrite !lookup_alter_eq, lookup_insert_eq. cbn [fmap option_fmap option_map].
  f_equal. unfold agenda_header. rewrite !append_assoc. reflexivity.
Qed.

(** C8 as stated fails for the research-outline program, which never reads
    its arguments: started with the extra argument "Quantum error correction"
    it completes, its report names the built-in topic, and the argument
    occurs neither in the report nor in any message sent to the endpoint. *)
Lemma topic_argument_ignored :
  exists self text,
    outline_run.2 = inr self /\
    files outline_run.1 !! Autogen.out_path = Some text /\
    contains ("Topic: " +:+ Autogen.TOPIC +:+ LF) text = true /\
    contains "Quantum error correction" text = false /\
    forallb
      (fun req =>
         forallb (fun m => negb (contains "Quantum error correction" (msg_content m)))
                 (req_messages req))
      (calls outline_run.1) = true.
Proof.
  eexists _, _. split; [vm_compute; reflexivity |].
  split; [vm_compute; reflexivity |].
  repeat split; vm_compute; reflexivity.
Qed.

(** C8 (amended): the conference-agenda program takes its theme from the
    command line.  The arguments after the script name, joined by single
    spaces, replace the default "AI in Education"; a completed run has
    handed the framework the crew built for that theme, whose first two
    agent goals and first task description quote it, and has written it into
    the report header.  The research-outline program behaves the same for
    every argument list. *)
Theorem theme_from_command_line `{Python}
    (endpoint : list Request -> Request -> exn + Response)
    (kickoff : Crewai.Crew -> gmap string string -> M string)
    (now : string) (argv : list string) (w w' : World) :
  Crewai.script kickoff now argv w = (w', inr tt) ->
  let theme :=
    match drop 1 argv with
    | [] => "AI in Education"
    | args => join " " args
    end in
  (exists g w0 w1 result,
     (Config.import w).2 = inr g /\
     kickoff (Crewai.build_crew g theme) {[ "conference_theme" := theme ]} w0
       = (w1, inr result) /\
     map Crewai.goal (take 2 (Crewai.agents (Crewai.build_crew g theme))) =
       [ "Define clear goals, target audience, and high-level tracks for a " +:+
         "3-day conference on '" +:+ theme +:+ "'.";
         "Design coherent session themes and talk ideas that fit the tracks " +:+
         "for a 3-day '" +:+ theme +:+ "' conference." ] /\
     (exists rest,
        Crewai.description <$> head (Crewai.tasks (Crewai.build_crew g theme)) =
        Some ("Define the high-level structure of a 3-day conference on '" +:+
              theme +:+ rest)) /\
     files w' !! Crewai.out_path =
       Some (("CrewAI Exercise 4 - 3-Day Conference Agenda" +:+ LF +:+
              str_mul "=" 80 +:+ LF +:+
              "Conference Theme: " +:+ theme +:+ LF +:+
              "Model (Groq): " +:+ Config.GROQ_MODEL g +:+ LF +:+
              "Generated at: " +:+ now +:+ LF +:+ LF) +:+ result)) /\
  (forall argv', Autogen.script endpoint argv' w = Autogen.script endpoint argv w).
Proof.
  intros Hrun theme.
  assert (Htheme : Crewai.theme_of_argv argv = theme).
  { unfold Crewai.theme_of_argv, theme.
    destruct argv as [| prog [| arg args]]; reflexivity. }
  split; [| reflexivity].
  unfold Crewai.script in Hrun.
  apply bind_inr_inv in Hrun as (w0 & g & Himport & Hmain).
  rewrite Htheme in Hmain.
  apply crewai_main_inr in Hmain as (w1 & w2 & result & Hkick & Hfile).
  exists g, w1, w2, result. split; [now rewrite Himport |].
  split; [exact Hkick |]. split; [reflexivity |].
  split; [eexists; reflexivity |]. exact Hfile.
Qed.

Lemma theme_from_command_line_witness :
  (exists g w0 w1 result,
     (Config.import (H := scenario_python) keyed_world).2 = inr g /\
     stub_kickoff (Crewai.build_crew g "AI Safety")
       {[ "conference_theme" := "AI Safety" ]} w0 = (w1, inr result) /\
     map Crewai.goal (take 2 (Crewai.agents (Crewai.build_crew g "AI Safety"))) =
       [ "Define clear goals, target audience, and high-level tracks for a " +:+
         "3-day conference on '" +:+ "AI Safety" +:+ "'.";
         "Design coherent session themes and talk ideas that fit the tracks " +:+
         "for a 3-day '" +:+ "AI Safety" +:+ "' conference." ] /\
     (exists rest,
        Crewai.description <$> head (Crewai.tasks (Crewai.build_crew g "AI Safety")) =
        Some ("Define the high-level structure of a 3-day conference on '" +:+
              "AI Safety" +:+ rest)) /\
     files (Crewai.script (H := scenario_python) stub_kickoff
              "2025-01-01 09:00:00" ["crewai_demo.py"; "AI"; "Safety"]
              keyed_world).1 !! Crewai.out_path =
       Some (("CrewAI Exercise 4 - 3-Day Conference Agenda" +:+ LF +:+
              str_mul "=" 80 +:+ LF +:+
              "Conference Theme: " +:+ "AI Safety" +:+ LF +:+
              "Model (Groq): " +:+ Config.GROQ_MODEL g +:+ LF +:+
              "Generated at: " +:+ "2025-01-01 09:00:00" +:+ LF +:+ LF)
             +:+ result)) /\
  (forall argv',
     Autogen.script (H := scenario_python) (scripted four_replies) argv' keyed_world
     = Autogen.script (H := scenario_python) (scripted four_replies)
         ["crewai_demo.py"; "AI"; "Safety"] keyed_world).
Proof.
  refine (theme_from_command_line (H := scenario_python) (scripted four_replies)
            stub_kickoff "2025-01-01 09:00:00" ["crewai_demo.py"; "AI"; "Safety"]
            keyed_world
            (Crewai.script (H := scenario_python) stub_kickoff
               "2025-01-01 09:00:00" ["crewai_demo.py"; "AI"; "Safety"]
               keyed_world).1 _).
  vm_compute. reflexivity.
Defined.

(** ** What reaches the endpoint *)

(** The request of a phase is the same whatever the workflow has stored:
    [context_text] is rendered and shown on the console, but it is not part
    of either message. *)
Lemma request_ignores_outputs `{Python}
    (endpoint : list Request -> Request -> exn + Response) (g : Config.globals)
    (self self' : Autogen.ResearchPaperWorkflow) (phase_name description : string)
    (agent_cfg : gmap string value) (role : value) (w : World) :
  agent_cfg !! "role" = Some role ->
  Autogen.model self = Autogen.model self' ->
  exists req,
    calls (Autogen.run_phase endpoint g self phase_name description agent_cfg w).1
      = calls w ++ [req] /\
    calls (Autogen.run_phase endpoint g self' phase_name description agent_cfg w).1
      = calls w ++ [req].
Proof.
  intros Hrole Hmodel.
  exists (phase_request g self phase_name role agent_cfg).
  rewrite !(run_phase_calls _ _ _ _ _ _ role) by exact Hrole.
  split; [reflexivity |]. unfold phase_request. now rewrite Hmodel.
Qed.

(** C1, evaluated on the configured phases with the canned completions
    ALPHA, BETA, GAMMA and DELTA: the run completes and stores the four
    outputs; the context rendered for the second phase, the LITERATURE block
    with ALPHA, was printed to the console; yet none of the eight messages
    sent to the endpoint contains any phase output or a block header. *)
Theorem prompts_omit_prior_outputs :
  (exists self,
     outline_run.2 = inr self /\
     Autogen.outputs self =
       [("literature", Some "ALPHA"); ("gaps", Some "BETA");
        ("outline", Some "GAMMA"); ("review", Some "DELTA")]) /\
  In ("[LITERATURE OUTPUT]" +:+ LF +:+ "ALPHA" +:+ LF) (stdout outline_run.1) /\
  map (fun req =>
         map (fun m =>
                existsb (fun text => contains text (msg_content m))
                        (" OUTPUT]" :: four_replies))
             (req_messages req))
      (calls outline_run.1)
  = [[false; false]; [false; false]; [false; false]; [false; false]].
Proof.
  split; [eexists; split; vm_compute; reflexivity |].
  split; [| vm_compute; reflexivity].
  apply list_elem_of_In, (bool_decide_unpack _). vm_compute. exact I.
Qed.

(** * Further properties of the code *)

(** ** The loop, whatever its outcome *)

Section LoopFacts.
Context `{Python}.
Variable endpoint : list Request -> Request -> exn + Response.
Variable g : Config.globals.

(** The request of a phase reads nothing of the workflow but its model. *)
Lemma phase_request_model self self' phase_name role agent_cfg :
  Autogen.model self = Autogen.model self' ->
  phase_request g self phase_name role agent_cfg
  = phase_request g self' phase_name role agent_cfg.
Proof. intros Hmodel. unfold phase_request. now rewrite Hmodel. Qed.

(** A phase never touches the environment. *)
Lemma run_phase_environ self phase_name description agent_cfg w :
  environ (Autogen.run_phase endpoint g self phase_name description agent_cfg w).1
  = environ w.
Proof.
  destruct (agent_cfg !! "role") as [role |] eqn:Hrole.
  - rewrite (run_phase_unfold _ _ _ _ _ _ role) by exact Hrole. cbv zeta.
    destruct (endpoint (calls w) _) as [e | [| content rest]]; reflexivity.
  - unfold Autogen.run_phase, getitem. rewrite Hrole. reflexivity.
Qed.

Lemma run_phases_environ phases self w :
  environ (Autogen.run_phases endpoint g phases self w).1 = environ w.
Proof.
  revert self w. induction phases as [| phase rest IH]; intros self w.
  - reflexivity.
  - simpl. unfold bind.
    pose proof (run_phase_environ self (Config.name phase)
                  (Config.description phase) (Config.agent_config phase) w) as Hstep.
    destruct (Autogen.run_phase endpoint g self (Config.name phase)
                (Config.description phase) (Config.agent_config phase) w)
      as [w1 [e | self1]]; simpl in Hstep.
    + exact Hstep.
    + now rewrite IH.
Qed.

(** Whatever happens, the loop only appends to the request log: at most one
    request per phase, each the request of one of the phases. *)
Lemma run_phases_requests phases self w :
  exists new,
    calls (Autogen.run_phases endpoint g phases self w).1 = calls w ++ new /\
    (length new <= length phases)%nat /\
    Forall (fun req =>
              exists phase role,
                In phase phases /\
                Config.agent_config phase !! "role" = Some role /\
                req = phase_request g self (Config.name phase) role
                        (Config.agent_config phase))
           new.
Proof.
  revert self w. induction phases as [| phase rest IH]; intros self w.
  - exists []. simpl. rewrite app_nil_r. repeat split; [lia | constructor].
  - cbn [Autogen.run_phases].
    destruct (Config.agent_config phase !! "role") as [role |] eqn:Hrole.
    + assert (Hhere : exists p r,
                In p (phase :: rest) /\
                Config.agent_config p !! "role" = Some r /\
                phase_request g self (Config.name phase) role
                  (Config.agent_config phase)
                = phase_request g self (Config.name p) r (Config.agent_config p)).
      { exists phase, role. repeat split; [now left | exact Hrole]. }
      unfold bind.
      pose proof (run_phase_calls endpoint g self (Config.name phase)
                    (Config.description phase) _ role w Hrole) as Hcalls.
      destruct (Autogen.run_phase endpoint g self (Config.name phase)
                  (Config.description phase) (Config.agent_config phase) w)
        as [w1 [e | self1]] eqn:Hstep; simpl in Hcalls.
      * eexists. split; [exact Hcalls |]. split; [simpl; lia |].
        constructor; [exact Hhere | constructor].
      * destruct (run_phase_inr _ _ _ _ _ _ _ _ _ Hstep)
          as (_ & _ & _ & _ & _ & _ & _ & _ & Hmodel & _).
        destruct (IH self1 w1) as (new & Hnew & Hlen & Hall).
        exists (phase_request g self (Config.name phase) role
                  (Config.agent_config phase) :: new).
        rewrite Hnew, Hcalls, <- app_assoc. split; [reflexivity |].
        split; [simpl; lia |].
        constructor; [exact Hhere |].
        revert Hall. apply List.Forall_impl.
        intros req (p & r & Hin & Hr & ->). exists p, r.
        repeat split; [now right | exact Hr |].
        now apply phase_request_model.
    + destruct (run_phase_no_role endpoint g self (Config.name phase)
                  (Config.description phase) _ w Hrole) as (w1 & Hraise & Hcalls & _).
      rewrite (bind_inl _ _ _ _ _ Hraise). exists []. simpl.
      rewrite app_nil_r. repeat split; [exact Hcalls | lia | constructor].
Qed.

(** The request log of [run] is the one the loop leaves. *)
Lemma run_calls self w :
  calls (Autogen.run endpoint g self w).1
  = calls (Autogen.run_phases endpoint g (Config.WORKFLOW_PHASES g) self
             (greeted self w)).1.
Proof.
  destruct (Autogen.run_phases endpoint g (Config.WORKFLOW_PHASES g) self
              (greeted self w)) as [w1 [e | self1]] eqn:Hloop.
  - now rewrite (run_inl _ _ _ _ _ _ Hloop).
  - destruct (outputs_texts_or_none (Autogen.outputs self1))
      as [(sections & Htexts) | (sections & n & rest & Hnone)].
    + destruct (run_inr _ _ _ _ _ _ _ Hloop Htexts) as (w2 & -> & Hcalls & _).
      exact Hcalls.
    + destruct (run_none _ _ _ _ _ _ _ _ _ Hloop Hnone) as (w2 & -> & Hcalls & _).
      exact Hcalls.
Qed.

End LoopFacts.

(** X1: [run] never retries and never rewrites history.  Whatever the
    outcome, the requests logged before the run are still there, in front,
    and the run has added at most one request per configured phase. *)
Theorem at_most_one_request_per_phase `{Python}
    (endpoint : list Request -> Request -> exn + Response) (g : Config.globals)
    (self : Autogen.ResearchPaperWorkflow) (w : World) :
  exists new,
    calls (Autogen.run endpoint g self w).1 = calls w ++ new /\
    (length new <= length (Config.WORKFLOW_PHASES g))%nat.
Proof.
  rewrite run_calls.
  destruct (run_phases_requests endpoint g (Config.WORKFLOW_PHASES g) self
              (greeted self w)) as (new & Hnew & Hlen & _).
  exists new. split; [exact Hnew | exact Hlen].
Qed.

(** X2: a phase whose agent dictionary has no ["role"] stops the run with
    [KeyError] before its request is built: the request log is the one the
    earlier phases left, later phases never run and no report is written. *)
Theorem missing_role_stops_run `{Python}
    (endpoint : list Request -> Request -> exn + Response) (g : Config.globals)
    (self : Autogen.ResearchPaperWorkflow) (w : World)
    (done : list Config.WorkflowPhase) (phase : Config.WorkflowPhase)
    (rest : list Config.WorkflowPhase)
    (w1 : World) (self1 : Autogen.ResearchPaperWorkflow) :
  Config.WORKFLOW_PHASES g = done ++ phase :: rest ->
  Autogen.run_phases endpoint g done self (greeted self w) = (w1, inr self1) ->
  Config.agent_config phase !! "role" = None ->
  exists w',
    Autogen.run endpoint g self w = (w', inl (KeyError "role")) /\
    calls w' = calls w1 /\
    files w' = files w.
Proof.
  intros Hsplit Hdone Hrole.
  destruct (run_phase_no_role endpoint g self1 (Config.name phase)
              (Config.description phase) _ w1 Hrole) as (w' & Hraise & Hcalls & _).
  assert (Hloop : Autogen.run_phases endpoint g (Config.WORKFLOW_PHASES g) self
                    (greeted self w) = (w', inl (KeyError "role"))).
  { rewrite Hsplit, run_phases_app, (bind_inr _ _ _ _ _ Hdone).
    cbn [Autogen.run_phases]. now apply bind_inl. }
  exists w'. split; [now apply run_inl |]. split; [exact Hcalls |].
  exact (eq_trans (eq_sym (f_equal (fun r => files r.1) Hloop))
           (run_phases_files endpoint g _ self (greeted self w))).
Qed.

Lemma missing_role_stops_run_witness :
  exists w',
    Autogen.run (H := scenario_python) (scripted ["X"; "Y"])
      (quiet_globals [phase_a; phase_without_role; phase_b])
      fresh_workflow empty_world = (w', inl (KeyError "role")) /\
    calls w' =
      calls (Autogen.run_phases (H := scenario_python) (scripted ["X"; "Y"])
               (quiet_globals [phase_a; phase_without_role; phase_b])
               [phase_a] fresh_workflow
               (greeted fresh_workflow empty_world)).1 /\
    files w' = files empty_world.
Proof.
  refine (missing_role_stops_run (H := scenario_python) (scripted ["X"; "Y"])
            (quiet_globals [phase_a; phase_without_role; phase_b])
            fresh_workflow empty_world [phase_a] phase_without_role [phase_b]
            _
            {| Autogen.client := "gsk-test";
               Autogen.model := "llama-3.1-8b-instant";
               Autogen.outputs := [("a", Some "X")] |}
            eq_refl _ _).
  - vm_compute. reflexivity.
  - vm_compute. reflexivity.
Defined.

(** X3: a response without choices stops the run with [IndexError].  The
    request of that phase did go out, nothing is stored for it, later phases
    never run and no report is written. *)
Theorem empty_choices_stop_run `{Python}
    (endpoint : list Request -> Request -> exn + Response) (g : Config.globals)
    (self : Autogen.ResearchPaperWorkflow) (w : World)
    (done : list Config.WorkflowPhase) (phase : Config.WorkflowPhase)
    (rest : list Config.WorkflowPhase)
    (w1 : World) (self1 : Autogen.ResearchPaperWorkflow) (role : value) :
  Config.WORKFLOW_PHASES g = done ++ phase :: rest ->
  Autogen.run_phases endpoint g done self (greeted self w) = (w1, inr self1) ->
  Config.agent_config phase !! "role" = Some role ->
  endpoint (calls w1)
    (phase_request g self1 (Config.name phase) role (Config.agent_config phase))
    = inr [] ->
  exists w',
    Autogen.run endpoint g self w = (w', inl IndexError) /\
    calls w' = calls w1 ++
      [phase_request g self1 (Config.name phase) role (Config.agent_config phase)] /\
    files w' = files w.
Proof.
  intros Hsplit Hdone Hrole Hempty.
  assert (Hstep : exists w',
            Autogen.run_phase endpoint g self1 (Config.name phase)
              (Config.description phase) (Config.agent_config phase) w1
            = (w', inl IndexError) /\
            calls w' = calls w1 ++
              [phase_request g self1 (Config.name phase) role
                 (Config.agent_config phase)]).
  { rewrite (run_phase_unfold endpoint g self1 _ _ _ role w1 Hrole).
    cbv zeta. rewrite Hempty. eexists. split; reflexivity. }
  destruct Hstep as (w' & Hstep & Hcalls).
  assert (Hloop : Autogen.run_phases endpoint g (Config.WORKFLOW_PHASES g) self
                    (greeted self w) = (w', inl IndexError)).
  { rewrite Hsplit, run_phases_app, (bind_inr _ _ _ _ _ Hdone).
    cbn [Autogen.run_phases]. now apply bind_inl. }
  exists w'. split; [now apply run_inl |]. split; [exact Hcalls |].
  exact (eq_trans (eq_sym (f_equal (fun r => files r.1) Hloop))
           (run_phases_files endpoint g _ self (greeted self w))).
Qed.

Lemma empty_choices_stop_run_witness :
  exists w',
    Autogen.run (H := scenario_python) no_choice_endpoint keyed_globals
      fresh_workflow keyed_world = (w', inl IndexError) /\
    calls w' = calls (greeted fresh_workflow keyed_world) ++
      [phase_request (H := scenario_python) keyed_globals fresh_workflow
         "literature" (VStr "Literature Review Specialist")
         (Config.LITERATURE_AGENT float_0_7)] /\
    files w' = files keyed_world.
Proof.
  refine (empty_choices_stop_run (H := scenario_python) no_choice_endpoint
            keyed_globals fresh_workflow keyed_world []
            {| Config.name := "literature";
               Config.description := "Literature review on the topic";
               Config.agent_config := Config.LITERATURE_AGENT float_0_7 |}
            (drop 1 (Config.phases float_0_7))
            (greeted fresh_workflow keyed_world) fresh_workflow
            (VStr "Literature Review Specialist") eq_refl eq_refl _ eq_refl).
  vm_compute. reflexivity.
Defined.

(** X4: [config.py] loads exactly when the three numeric settings parse,
    each taken from the environment or from its default; the credential
    plays no part in loading, and loading changes nothing in the world. *)
Theorem config_loads_iff_numbers_parse `{Python} (w : World) :
  (Config.import w).1 = w /\
  ((exists g, (Config.import w).2 = inr g) <->
   is_Some (float_of_str (default "0.7" (environ w !! "AGENT_TEMPERATURE"))) /\
   is_Some (int_of_str (default "2000" (environ w !! "AGENT_MAX_TOKENS"))) /\
   is_Some (int_of_str (default "300" (environ w !! "AGENT_TIMEOUT")))).
Proof.
  split; [apply import_world |].
  rewrite import_unfold. cbv zeta.
  destruct (float_of_str _) as [t |];
    [| split; [intros [g Hg]; discriminate | intros ([? [=]] & _)]].
  destruct (int_of_str (default "2000" _)) as [n |];
    [| split; [intros [g Hg]; discriminate | intros (_ & [? [=]] & _)]].
  destruct (int_of_str (default "300" _)) as [m |];
    [| split; [intros [g Hg]; discriminate | intros (_ & _ & [? [=]])]].
  split; [intros _; repeat split; eexists; reflexivity | intros _; eexists; reflexivity].
Qed.

(** X5: [AGENT_TIMEOUT] is read by neither program, yet a text for it that
    [int] rejects stops both scripts at import time with [ValueError]: nothing
    is printed, requested or written, whether or not the credential is set. *)
Theorem malformed_timeout_aborts_both_scripts `{Python}
    (endpoint : list Request -> Request -> exn + Response)
    (kickoff : Crewai.Crew -> gmap string string -> M string)
    (now : string) (argv : list string) (w : World)
    (temperature : float) (max_tokens : Z) :
  float_of_str (default "0.7" (environ w !! "AGENT_TEMPERATURE")) = Some temperature ->
  int_of_str (default "2000" (environ w !! "AGENT_MAX_TOKENS")) = Some max_tokens ->
  int_of_str (default "300" (environ w !! "AGENT_TIMEOUT")) = None ->
  Autogen.script endpoint argv w
    = (w, inl (ValueError (default "300" (environ w !! "AGENT_TIMEOUT")))) /\
  Crewai.script kickoff now argv w
    = (w, inl (ValueError (default "300" (environ w !! "AGENT_TIMEOUT")))).
Proof.
  intros Htemp Htokens Htimeout.
  assert (Hfail : Config.import w
                  = (w, inl (ValueError (default "300" (environ w !! "AGENT_TIMEOUT"))))).
  { rewrite import_eq, import_unfold. cbv zeta.
    now rewrite Htemp, Htokens, Htimeout. }
  unfold Autogen.script, Crewai.script.
  now rewrite !(bind_inl _ _ _ _ _ Hfail).
Qed.

Lemma malformed_timeout_aborts_both_scripts_witness :
  Autogen.script (H := scenario_python) (scripted four_replies) ["demo.py"]
    bad_timeout_world = (bad_timeout_world, inl (ValueError "soon")) /\
  Crewai.script (H := scenario_python) stub_kickoff "2025-01-01 09:00:00"
    ["demo.py"] bad_timeout_world = (bad_timeout_world, inl (ValueError "soon")).
Proof.
  apply (malformed_timeout_aborts_both_scripts (H := scenario_python)
           (scripted four_replies) stub_kickoff "2025-01-01 09:00:00" ["demo.py"]
           bad_timeout_world float_0_7 2000); reflexivity.
Defined.

(** X6: a credential that is set to the empty string counts as missing.
    Once [config.py] has loaded, both scripts raise the same [RuntimeError]
    as for an unset credential, without a request and without a file; the
    conference script has not yet touched the [OPENAI_*] variables. *)
Theorem empty_key_counts_as_missing `{Python}
    (endpoint : list Request -> Request -> exn + Response)
    (kickoff : Crewai.Crew -> gmap string string -> M string)
    (now : string) (argv : list string) (w : World) (g : Config.globals) :
  environ w !! "GROQ_API_KEY" = Some "" ->
  (Config.import w).2 = inr g ->
  Autogen.script endpoint argv w
    = (w, inl (RuntimeError "GROQ_API_KEY is not set in .env.")) /\
  exists w',
    Crewai.script kickoff now argv w
      = (w', inl (RuntimeError "GROQ_API_KEY is not set in .env.")) /\
    calls w' = calls w /\ files w' = files w /\ environ w' = environ w.
Proof.
  intros Hempty Himport.
  assert (Hok : Config.import w = (w, inr g))
    by (rewrite import_eq, Himport; reflexivity).
  destruct (import_key w g Himport) as (Hkey & _). rewrite Hempty in Hkey.
  unfold Autogen.script, Crewai.script. rewrite !(bind_inr _ _ _ _ _ Hok).
  split.
  - apply bind_inl. unfold Autogen.__init__. now rewrite Hkey.
  - unfold Crewai.main. rewrite !bind_print, Hkey.
    eexists. split; [reflexivity |]. repeat split.
Qed.

Lemma empty_key_counts_as_missing_witness :
  Autogen.script (H := scenario_python) (scripted four_replies) ["demo.py"]
    empty_key_world
    = (empty_key_world, inl (RuntimeError "GROQ_API_KEY is not set in .env.")) /\
  exists w',
    Crewai.script (H := scenario_python) stub_kickoff "2025-01-01 09:00:00"
      ["demo.py"] empty_key_world
      = (w', inl (RuntimeError "GROQ_API_KEY is not set in .env.")) /\
    calls w' = calls empty_key_world /\ files w' = files empty_key_world /\
    environ w' = environ empty_key_world.
Proof.
  refine (empty_key_counts_as_missing (H := scenario_python)
            (scripted four_replies) stub_kickoff "2025-01-01 09:00:00" ["demo.py"]
            empty_key_world
            {| Config.GROQ_API_KEY := Some "";
               Config.GROQ_MODEL := "llama-3.1-8b-instant";
               Config.GROQ_API_BASE := "https://api.groq.com/openai/v1";
               Config.AGENT_TEMPERATURE_DEFAULT := float_0_7;
               Config.AGENT_MAX_TOKENS := 2000;
               Config.AGENT_TIMEOUT := 300;
               Config.VERBOSE := true;
               Config.DEBUG := false;
               Config.WORKFLOW_PHASES := Config.phases float_0_7 |}
            eq_refl _).
  vm_compute. reflexivity.
Defined.

(** X7: every request that the research-outline script issues, whether it
    completes or not, carries the loaded configuration: the model
    [GROQ_MODEL], the temperature [AGENT_TEMPERATURE_DEFAULT], the budget
    [AGENT_MAX_TOKENS], the roles system then user, and as user message the
    instruction of one of the four recognised phases, never the fallback. *)
Theorem requests_carry_configuration `{Python}
    (endpoint : list Request -> Request -> exn + Response)
    (argv : list string) (w : World) (g : Config.globals) :
  (Config.import w).2 = inr g ->
  exists new,
    calls (Autogen.script endpoint argv w).1 = calls w ++ new /\
    Forall (fun req =>
              req_model req = Config.GROQ_MODEL g /\
              req_temperature req = Some (VFloat (Config.AGENT_TEMPERATURE_DEFAULT g)) /\
              req_max_tokens req = Config.AGENT_MAX_TOKENS g /\
              exists system key,
                In key recognized /\
                Autogen.user_message key <> fallback /\
                req_messages req =
                  [ {| msg_role := "system"; msg_content := system |};
                    {| msg_role := "user";
                       msg_content := Autogen.user_message key |} ])
           new.
Proof.
  intros Himport.
  assert (Hok : Config.import w = (w, inr g))
    by (rewrite import_eq, Himport; reflexivity).
  unfold Autogen.script. rewrite (bind_inr _ _ _ _ _ Hok).
  unfold Autogen.__init__.
  destruct (negb (truthy (Config.GROQ_API_KEY g))).
  { exists []. rewrite app_nil_r. split; [reflexivity | constructor]. }
  unfold bind at 1, ret. rewrite run_calls.
  match goal with
  | |- context [Autogen.run_phases _ _ _ ?self ?w0] =>
      destruct (run_phases_requests endpoint g (Config.WORKFLOW_PHASES g) self w0)
        as (new & Hnew & _ & Hall)
  end.
  exists new. split; [exact Hnew |].
  revert Hall. apply List.Forall_impl.
  intros req (phase & role & Hin & Hrole & ->).
  rewrite (import_phases w g Himport) in Hin.
  destruct (phases_configured _ _ Hin) as (Hname & Htemp & _).
  unfold phase_request; simpl. repeat split; [exact Htemp |].
  exists (system_prompt role (Config.agent_config phase)), (Config.name phase).
  split; [exact Hname |]. split; [now apply user_message_recognized | reflexivity].
Qed.

Lemma requests_carry_configuration_witness :
  exists new,
    calls (Autogen.script (H := scenario_python) (scripted ["ALPHA"; "BETA"])
             ["autogen_simple_demo.py"] keyed_world).1
      = calls keyed_world ++ new /\
    Forall (fun req =>
              req_model req = "llama-3.1-8b-instant" /\
              req_temperature req = Some (VFloat float_0_7) /\
              req_max_tokens req = 2000 /\
              exists system key,
                In key recognized /\
                Autogen.user_message key <> fallback /\
                req_messages req =
                  [ {| msg_role := "system"; msg_content := system |};
                    {| msg_role := "user";
                       msg_content := Autogen.user_message key |} ])
           new.
Proof.
  refine (requests_carry_configuration (H := scenario_python)
            (scripted ["ALPHA"; "BETA"]) ["autogen_simple_demo.py"] keyed_world
            {| Config.GROQ_API_KEY := Some "gsk-test";
               Config.GROQ_MODEL := "llama-3.1-8b-instant";
               Config.GROQ_API_BASE := "https://api.groq.com/openai/v1";
               Config.AGENT_TEMPERATURE_DEFAULT := float_0_7;
               Config.AGENT_MAX_TOKENS := 2000;
               Config.AGENT_TIMEOUT := 300;
               Config.VERBOSE := true;
               Config.DEBUG := false;
               Config.WORKFLOW_PHASES := Config.phases float_0_7 |} _).
  vm_compute. reflexivity.
Defined.

(** ** The stored outputs *)

(** An assignment keeps every key where it is; a new key goes last. *)
Lemma dict_set_keys {V} (d : list (string * V)) (key : string) (v : V) :
  (In key (map fst d) /\ map fst (dict_set d key v) = map fst d) \/
  (~ In key (map fst d) /\ map fst (dict_set d key v) = map fst d ++ [key]).
Proof.
  induction d as [| [k old] d IH].
  - right. split; [intros [] | reflexivity].
  - simpl. destruct (String.eqb_spec k key) as [-> | Hne].
    + left. split; [now left | reflexivity].
    + destruct IH as [(Hin & Heq) | (Hnot & Heq)].
      * left. split; [now right | simpl; now rewrite Heq].
      * right. split; [intros [Hk | Hin]; [now apply Hne | now apply Hnot] |].
        simpl. now rewrite Heq.
Qed.

(** After an assignment the key is present, with the assigned text. *)
Lemma dict_set_stored {V} (d : list (string * V)) (key : string) (v : V) :
  In (key, v) (dict_set d key v).
Proof.
  induction d as [| [k old] d IH].
  - now left.
  - simpl. destruct (String.eqb_spec k key) as [-> | Hne]; [now left | now right].
Qed.

(** The later of two assignments to one key wins, at the position of the
    first. *)
Lemma dict_set_twice {V} (d : list (string * V)) (key : string) (v1 v2 : V) :
  dict_set (dict_set d key v1) key v2 = dict_set d key v2.
Proof.
  induction d as [| [k old] d IH].
  - simpl. now rewrite String.eqb_refl.
  - simpl. destruct (String.eqb_spec k key) as [-> | Hne].
    + simpl. now rewrite String.eqb_refl.
    + simpl. destruct (String.eqb_spec k key) as [-> | _]; [contradiction |].
      now rewrite IH.
Qed.

(** Distinct keys stay distinct under an assignment. *)
Lemma dict_set_nodup {V} (d : list (string * V)) (key : string) (v : V) :
  List.NoDup (map fst d) -> List.NoDup (map fst (dict_set d key v)).
Proof.
  intros Hnodup.
  destruct (dict_set_keys d key v) as [(_ & ->) | (Hnot & ->)]; [exact Hnodup |].
  apply List.NoDup_app; repeat split.
  - exact Hnodup.
  - constructor; [intros [] | constructor].
  - intros x Hx [<- | []]. now apply Hnot.
Qed.

(** X8: the stored outputs behave as a dict throughout the phase loop.  If
    the keys were pairwise distinct before, they are after; the old keys
    are still there, in front and in their order; and the keys present
    afterwards are exactly the old ones and the names of the phases. *)
Theorem outputs_keys_stay_distinct `{Python}
    (endpoint : list Request -> Request -> exn + Response) (g : Config.globals)
    (phases : list Config.WorkflowPhase)
    (self : Autogen.ResearchPaperWorkflow) (w w' : World)
    (self' : Autogen.ResearchPaperWorkflow) :
  Autogen.run_phases endpoint g phases self w = (w', inr self') ->
  List.NoDup (map fst (Autogen.outputs self)) ->
  List.NoDup (map fst (Autogen.outputs self')) /\
  (exists added,
     map fst (Autogen.outputs self') = map fst (Autogen.outputs self) ++ added) /\
  (forall key,
     In key (map fst (Autogen.outputs self')) <->
     In key (map fst (Autogen.outputs self)) \/ In key (map Config.name phases)).
Proof.
  revert self w. induction phases as [| phase rest IH]; intros self w Hrun Hnodup.
  - simpl in Hrun. injection Hrun as <- <-. split; [exact Hnodup |].
    split; [exists []; now rewrite app_nil_r | simpl; tauto].
  - simpl in Hrun. apply bind_inr_inv in Hrun as (w1 & self1 & Hstep & Hrest).
    destruct (run_phase_inr _ _ _ _ _ _ _ _ _ Hstep)
      as (role & content & more & _ & _ & _ & _ & _ & _ & Houts).
    assert (Hnodup1 : List.NoDup (map fst (Autogen.outputs self1)))
      by (rewrite Houts; now apply dict_set_nodup).
    destruct (IH _ _ Hrest Hnodup1) as (Hdistinct & (added & Hadded) & Hkeys).
    split; [exact Hdistinct |].
    pose proof (dict_set_keys (Autogen.outputs self) (Config.name phase) content)
      as Hset.
    rewrite <- Houts in Hset.
    split.
    + destruct Hset as [(_ & Heq) | (_ & Heq)]; rewrite Hadded, Heq.
      * now exists added.
      * exists (Config.name phase :: added). now rewrite <- app_assoc.
    + intros key. rewrite Hkeys. simpl.
      destruct Hset as [(Hin & ->) | (_ & ->)].
      * split; [tauto |]. intros [Hold | [<- | Hlater]]; tauto.
      * rewrite in_app_iff. simpl. tauto.
Qed.

Lemma outputs_keys_stay_distinct_witness :
  List.NoDup (map fst [("a", Some "Y"); ("b", Some "Z")]) /\
  (exists added,
     map fst [("a", Some "Y"); ("b", Some "Z")]
     = map fst (Autogen.outputs fresh_workflow) ++ added) /\
  (forall key,
     In key (map fst [("a", Some "Y"); ("b", Some "Z")]) <->
     In key (map fst (Autogen.outputs fresh_workflow)) \/
     In key (map Config.name [phase_a; phase_a_again; phase_b])).
Proof.
  refine (outputs_keys_stay_distinct (H := scenario_python)
            (scripted ["X"; "Y"; "Z"]) (quiet_globals [])
            [phase_a; phase_a_again; phase_b] fresh_workflow empty_world
            (Autogen.run_phases (H := scenario_python) (scripted ["X"; "Y"; "Z"])
               (quiet_globals []) [phase_a; phase_a_again; phase_b]
               fresh_workflow empty_world).1
            {| Autogen.client := "gsk-test";
               Autogen.model := "llama-3.1-8b-instant";
               Autogen.outputs := [("a", Some "Y"); ("b", Some "Z")] |} _ _).
  - vm_compute. reflexivity.
  - constructor.
Defined.

(** X9: two phases that share a name share one entry.  After both have
    run, the stored outputs are the original ones with a single assignment
    for that name, holding the second completion; the first is gone. *)
Theorem same_name_overwrites `{Python}
    (endpoint : list Request -> Request -> exn + Response) (g : Config.globals)
    (self : Autogen.ResearchPaperWorkflow) (A B : Config.WorkflowPhase)
    (w w2 : World) (self2 : Autogen.ResearchPaperWorkflow) :
  Config.name A = Config.name B ->
  Autogen.run_phases endpoint g [A; B] self w = (w2, inr self2) ->
  exists role second rest,
    Config.agent_config B !! "role" = Some role /\
    last (calls w2) = Some (phase_request g self (Config.name B) role
                              (Config.agent_config B)) /\
    endpoint (removelast (calls w2))
      (phase_request g self (Config.name B) role (Config.agent_config B))
      = inr (second :: rest) /\
    Autogen.outputs self2 = dict_set (Autogen.outputs self) (Config.name A) second.
Proof.
  intros Hname Hrun. simpl in Hrun.
  apply bind_inr_inv in Hrun as (w1 & self1 & HA & Hrest).
  apply bind_inr_inv in Hrest as (w2' & self2' & HB & Hret).
  injection Hret as <- <-.
  destruct (run_phase_inr _ _ _ _ _ _ _ _ _ HA)
    as (roleA & first & restA & _ & _ & _ & _ & _ & HmodelA & HoutsA).
  destruct (run_phase_inr _ _ _ _ _ _ _ _ _ HB)
    as (role & second & rest & Hrole & Hanswer & Hcalls & _ & _ & _ & HoutsB).
  rewrite (phase_request_model g self1 self) in Hanswer, Hcalls by exact HmodelA.
  exists role, second, rest. split; [exact Hrole |].
  rewrite Hcalls, last_snoc, removelast_last.
  repeat split; [exact Hanswer |].
  rewrite HoutsB, HoutsA, <- Hname. apply dict_set_twice.
Qed.

Lemma same_name_overwrites_witness :
  exists role second rest,
    Config.agent_config phase_a_again !! "role" = Some role /\
    last (calls (Autogen.run_phases (H := scenario_python) (scripted ["X"; "Y"])
                   (quiet_globals []) [phase_a; phase_a_again]
                   fresh_workflow empty_world).1)
      = Some (phase_request (H := scenario_python) (quiet_globals [])
                fresh_workflow "a" role (Config.agent_config phase_a_again)) /\
    scripted ["X"; "Y"]
      (removelast
         (calls (Autogen.run_phases (H := scenario_python) (scripted ["X"; "Y"])
                   (quiet_globals []) [phase_a; phase_a_again]
                   fresh_workflow empty_world).1))
      (phase_request (H := scenario_python) (quiet_globals []) fresh_workflow
         "a" role (Config.agent_config phase_a_again))
      = inr (second :: rest) /\
    [("a", Some "Y")] = dict_set [] "a" second.
Proof.
  refine (same_name_overwrites (H := scenario_python) (scripted ["X"; "Y"])
            (quiet_globals []) fresh_workflow phase_a phase_a_again empty_world
            _
            {| Autogen.client := "gsk-test";
               Autogen.model := "llama-3.1-8b-instant";
               Autogen.outputs := [("a", Some "Y")] |} eq_refl _).
  vm_compute. reflexivity.
Defined.

(** ** The rendered context *)

(** X10: the context that a phase renders lists the phases run before it
    and nothing else.  After a fresh workflow has gone through phases [done]
    with pairwise distinct names, the stored keys are those names in order;
    the context built from them is the placeholder when [done] is empty;
    otherwise, followed by a newline, it is the concatenation, in that
    order, of one block per entry (header line, stored content, newline)
    each followed by a newline; and with [VERBOSE] on, the next phase
    prints exactly that context, whatever the endpoint then does. *)
Theorem rendered_context_is_prior_outputs `{Python}
    (endpoint : list Request -> Request -> exn + Response) (g : Config.globals)
    (self : Autogen.ResearchPaperWorkflow) (done : list Config.WorkflowPhase)
    (next : Config.WorkflowPhase) (role : value)
    (w w1 : World) (self1 : Autogen.ResearchPaperWorkflow) :
  Autogen.outputs self = [] ->
  NoDup (map Config.name done) ->
  Autogen.run_phases endpoint g done self w = (w1, inr self1) ->
  Config.VERBOSE g = true ->
  Config.agent_config next !! "role" = Some role ->
  map fst (Autogen.outputs self1) = map Config.name done /\
  (done = [] ->
   Autogen.context_text (Autogen.outputs self1) = "No prior context yet.") /\
  (done <> [] ->
   Autogen.context_text (Autogen.outputs self1) +:+ LF =
   concat_str
     (map (fun entry =>
             ("[" +:+ str_upper entry.1 +:+ " OUTPUT]" +:+ LF +:+
              str_content entry.2 +:+ LF) +:+ LF)
          (Autogen.outputs self1))) /\
  In (Autogen.context_text (Autogen.outputs self1))
     (stdout (Autogen.run_phase endpoint g self1 (Config.name next)
                (Config.description next) (Config.agent_config next) w1).1).
Proof.
  intros Hfresh Hnodup Hrun Hverbose Hrole.
  destruct (run_phases_inr _ _ _ _ _ _ _ Hrun) as (_ & _ & Hnames).
  rewrite Hfresh in Hnames. specialize (Hnames Hnodup). simpl in Hnames.
  split; [exact Hnames |]. split; [| split].
  - intros ->. destruct (Autogen.outputs self1); [reflexivity | discriminate].
  - intros Hdone. apply context_text_terminated.
    intros Hnone. rewrite Hnone in Hnames. destruct done; [contradiction | discriminate].
  - rewrite (run_phase_unfold endpoint g self1 _ _ _ role w1 Hrole). cbv zeta.
    assert (Hshown : In (Autogen.context_text (Autogen.outputs self1))
                        (stdout (announced g self1 (Config.name next)
                                   (Config.description next) w1))).
    { unfold announced. rewrite Hverbose. cbn [stdout].
      apply in_or_app. right. right. now left. }
    destruct (endpoint (calls w1) _) as [e | [| content rest]]; cbn [fst stdout];
      try exact Hshown.
    apply in_or_app. now left.
Qed.

Lemma rendered_context_is_prior_outputs_witness :
  Autogen.context_text (H := scenario_python) [("a", Some "X"); ("b", Some "Y")]
  = "[A OUTPUT]" +:+ LF +:+ "X" +:+ LF +:+ LF +:+
    "[B OUTPUT]" +:+ LF +:+ "Y" +:+ LF /\
  map fst [("a", Some "X"); ("b", Some "Y")] = map Config.name [phase_a; phase_b] /\
  ([phase_a; phase_b] = [] ->
   Autogen.context_text (H := scenario_python) [("a", Some "X"); ("b", Some "Y")]
   = "No prior context yet.") /\
  ([phase_a; phase_b] <> [] ->
   Autogen.context_text (H := scenario_python) [("a", Some "X"); ("b", Some "Y")]
     +:+ LF =
   concat_str
     (map (fun entry : string * option string =>
             ("[" +:+ ascii_upper entry.1 +:+ " OUTPUT]" +:+ LF +:+
              str_content entry.2 +:+ LF) +:+ LF)
          [("a", Some "X"); ("b", Some "Y")])) /\
  In (Autogen.context_text (H := scenario_python)
        [("a", Some "X"); ("b", Some "Y")])
     (stdout (Autogen.run_phase (H := scenario_python) (scripted ["X"; "Y"])
                (loud_globals [])
                {| Autogen.client := "gsk-test";
                   Autogen.model := "llama-3.1-8b-instant";
                   Autogen.outputs := [("a", Some "X"); ("b", Some "Y")] |}
                "c" "Third" {[ "role" := VStr "Judge" ]}
                (Autogen.run_phases (H := scenario_python) (scripted ["X"; "Y"])
                   (loud_globals []) [phase_a; phase_b] fresh_workflow
                   empty_world).1).1).
Proof.
  split; [vm_compute; reflexivity |].
  refine (rendered_context_is_prior_outputs (H := scenario_python)
            (scripted ["X"; "Y"]) (loud_globals []) fresh_workflow
            [phase_a; phase_b] phase_c (VStr "Judge") empty_world
            (Autogen.run_phases (H := scenario_python) (scripted ["X"; "Y"])
               (loud_globals []) [phase_a; phase_b] fresh_workflow empty_world).1
            {| Autogen.client := "gsk-test";
               Autogen.model := "llama-3.1-8b-instant";
               Autogen.outputs := [("a", Some "X"); ("b", Some "Y")] |}
            eq_refl _ _ eq_refl eq_refl).
  - apply (bool_decide_unpack _). vm_compute. exact I.
  - vm_compute. reflexivity.
Defined.

(** ** The loop as a replay *)

Section ReplayFacts.
Context `{Python}.
Variable endpoint : list Request -> Request -> exn + Response.
Variable g : Config.globals.

Lemma replay_model self self' served phases :
  Autogen.model self = Autogen.model self' ->
  replay endpoint g self served phases = replay endpoint g self' served phases.
Proof.
  intros Hmodel. revert served.
  induction phases as [| phase rest IH]; intros served; [reflexivity |].
  simpl. destruct (Config.agent_config phase !! "role") as [role |]; [| reflexivity].
  rewrite (phase_request_model g self self') by exact Hmodel.
  destruct (endpoint served _) as [e | [| content more]]; try reflexivity.
  now rewrite IH.
Qed.

(** The loop succeeds exactly when the replay does, and then it has stored
    the replayed entries, one assignment after the other. *)
Lemma run_phases_replay phases self w :
  match replay endpoint g self (calls w) phases with
  | Some stored =>
      exists w',
        Autogen.run_phases endpoint g phases self w =
        (w', inr {| Autogen.client := Autogen.client self;
                    Autogen.model := Autogen.model self;
                    Autogen.outputs := dict_update (Autogen.outputs self) stored |})
  | None => exists w' e, Autogen.run_phases endpoint g phases self w = (w', inl e)
  end.
Proof.
  revert self w. induction phases as [| phase rest IH]; intros self w.
  - simpl. exists w. now destruct self.
  - cbn [replay Autogen.run_phases].
    destruct (Config.agent_config phase !! "role") as [role |] eqn:Hrole.
    2: { destruct (run_phase_no_role endpoint g self (Config.name phase)
                     (Config.description phase) _ w Hrole) as (w1 & Hraise & _).
         exists w1, (KeyError "role"). now apply bind_inl. }
    cbv zeta.
    pose proof (run_phase_unfold endpoint g self (Config.name phase)
                  (Config.description phase) _ role w Hrole) as Hstep.
    cbv zeta in Hstep.
    destruct (endpoint (calls w) _) as [e | [| content more]].
    + eexists _, e. apply bind_inl. exact Hstep.
    + eexists _, IndexError. apply bind_inl. exact Hstep.
    + rewrite (bind_inr _ _ _ _ _ Hstep).
      match goal with
      | |- context [Autogen.run_phases endpoint g rest ?self1 ?w1] =>
          specialize (IH self1 w1);
          rewrite (replay_model self1 self) in IH by reflexivity
      end.
      cbn [calls] in IH.
      destruct (replay endpoint g self _ rest) as [stored |]; exact IH.
Qed.

(** An endpoint that always answers carries the replay through every phase
    that has a role. *)
Lemma replay_answers phases self served :
  (forall served req, exists content rest, endpoint served req = inr (content :: rest)) ->
  (forall phase, In phase phases ->
     exists role, Config.agent_config phase !! "role" = Some role) ->
  exists stored, replay endpoint g self served phases = Some stored.
Proof.
  intros Hanswers. revert served.
  induction phases as [| phase rest IH]; intros served Hroles.
  - now exists [].
  - simpl. destruct (Hroles phase (or_introl eq_refl)) as (role & ->).
    destruct (Hanswers served (phase_request g self (Config.name phase) role
                                 (Config.agent_config phase)))
      as (content & more & ->).
    destruct (IH (served ++ [phase_request g self (Config.name phase) role
                               (Config.agent_config phase)])) as (stored & ->).
    + intros p Hp. apply Hroles. now right.
    + eexists. reflexivity.
Qed.

End ReplayFacts.

(** A new key is appended with its value. *)
Lemma dict_set_append {V} (d : list (string * V)) (key : string) (v : V) :
  ~ In key (map fst d) -> dict_set d key v = d ++ [(key, v)].
Proof.
  induction d as [| [k old] d IH]; intros Hfresh.
  - reflexivity.
  - simpl in *. destruct (String.eqb_spec k key) as [-> | Hne].
    + exfalso. apply Hfresh. now left.
    + f_equal. apply IH. tauto.
Qed.

(** Assigning entries with new, pairwise distinct keys appends them. *)
Lemma dict_update_append (d entries : list (string * option string)) :
  List.NoDup (map fst d ++ map fst entries) -> dict_update d entries = d ++ entries.
Proof.
  revert d. induction entries as [| [key v] entries IH]; intros d Hnodup.
  - unfold dict_update. simpl. now rewrite app_nil_r.
  - unfold dict_update in *. simpl in *.
    assert (Hfresh : ~ In key (map fst d)).
    { intros Hin. apply List.NoDup_remove_2 in Hnodup.
      apply Hnodup, in_or_app. now left. }
    rewrite dict_set_append by exact Hfresh.
    rewrite IH; [now rewrite <- app_assoc |].
    rewrite map_app, <- app_assoc. exact Hnodup.
Qed.

(** The keys of a successful replay are the phase names, in order. *)
Lemma replay_names `{Python}
    (endpoint : list Request -> Request -> exn + Response) (g : Config.globals)
    (self : Autogen.ResearchPaperWorkflow) (phases : list Config.WorkflowPhase)
    (served : list Request) (stored : list (string * option string)) :
  replay endpoint g self served phases = Some stored ->
  map fst stored = map Config.name phases.
Proof.
  revert served stored.
  induction phases as [| phase rest IH]; intros served stored Hreplay.
  - injection Hreplay as <-. reflexivity.
  - simpl in Hreplay.
    destruct (Config.agent_config phase !! "role") as [role |]; [| discriminate].
    destruct (endpoint served _) as [e | [| content more]]; try discriminate.
    destruct (replay endpoint g self _ rest) as [stored' |] eqn:Hrest;
      [| discriminate].
    injection Hreplay as <-. simpl. f_equal. eapply IH. exact Hrest.
Qed.

(** X11: the phase loop is a replay of the endpoint.  Started on a fresh
    workflow over phases with pairwise distinct names, it completes exactly
    when every phase in turn has a role and gets a first choice from the
    endpoint, given the requests served so far; it then leaves client and
    model alone and its outputs are, in phase order, each phase name with
    the content of that first choice.  In every other case it raises. *)
Theorem loop_is_replay `{Python}
    (endpoint : list Request -> Request -> exn + Response) (g : Config.globals)
    (phases : list Config.WorkflowPhase)
    (self : Autogen.ResearchPaperWorkflow) (w : World) :
  Autogen.outputs self = [] ->
  NoDup (map Config.name phases) ->
  match replay endpoint g self (calls w) phases with
  | Some stored =>
      map fst stored = map Config.name phases /\
      exists w',
        Autogen.run_phases endpoint g phases self w =
        (w', inr {| Autogen.client := Autogen.client self;
                    Autogen.model := Autogen.model self;
                    Autogen.outputs := stored |})
  | None => exists w' e, Autogen.run_phases endpoint g phases self w = (w', inl e)
  end.
Proof.
  intros Hfresh Hnodup.
  pose proof (run_phases_replay endpoint g phases self w) as Hloop.
  destruct (replay endpoint g self (calls w) phases) as [stored |] eqn:Hreplay;
    [| exact Hloop].
  pose proof (replay_names _ _ _ _ _ _ Hreplay) as Hnames.
  split; [exact Hnames |].
  rewrite Hfresh, dict_update_append in Hloop; [exact Hloop |].
  simpl. rewrite Hnames. now apply NoDup_ListNoDup.
Qed.

Lemma loop_is_replay_witness :
  replay (H := scenario_python) (scripted ["X"; "Y"; "Z"]) (quiet_globals [])
    fresh_workflow (calls empty_world) [phase_a; phase_b; phase_c]
  = Some [("a", Some "X"); ("b", Some "Y"); ("c", Some "Z")] /\
  map fst [("a", Some "X"); ("b", Some "Y"); ("c", Some "Z")]
  = map Config.name [phase_a; phase_b; phase_c] /\
  exists w',
    Autogen.run_phases (H := scenario_python) (scripted ["X"; "Y"; "Z"])
      (quiet_globals []) [phase_a; phase_b; phase_c] fresh_workflow empty_world =
    (w', inr {| Autogen.client := "gsk-test";
                Autogen.model := "llama-3.1-8b-instant";
                Autogen.outputs :=
                  [("a", Some "X"); ("b", Some "Y"); ("c", Some "Z")] |}).
Proof.
  split; [vm_compute; reflexivity |].
  refine (loop_is_replay (H := scenario_python) (scripted ["X"; "Y"; "Z"])
            (quiet_globals []) [phase_a; phase_b; phase_c] fresh_workflow
            empty_world eq_refl _).
  apply (bool_decide_unpack _). vm_compute. exact I.
Defined.

(** An endpoint that always answers with a text carries the replay through
    every phase that has a role, and only texts are stored. *)
Lemma replay_answers_text `{Python}
    (endpoint : list Request -> Request -> exn + Response) (g : Config.globals)
    (self : Autogen.ResearchPaperWorkflow) (phases : list Config.WorkflowPhase)
    (served : list Request) :
  (forall served req,
     exists text rest, endpoint served req = inr (Some text :: rest)) ->
  (forall phase, In phase phases ->
     exists role, Config.agent_config phase !! "role" = Some role) ->
  exists sections,
    replay endpoint g self served phases = Some (map as_text sections).
Proof.
  intros Hanswers. revert served.
  induction phases as [| phase rest IH]; intros served Hroles.
  - now exists [].
  - simpl. destruct (Hroles phase (or_introl eq_refl)) as (role & ->).
    destruct (Hanswers served (phase_request g self (Config.name phase) role
                                 (Config.agent_config phase)))
      as (text & more & ->).
    destruct (IH (served ++ [phase_request g self (Config.name phase) role
                               (Config.agent_config phase)])) as (sections & ->).
    + intros p Hp. apply Hroles. now right.
    + now exists ((Config.name phase, text) :: sections).
Qed.

(** X12: the research-outline script completes whenever the configuration
    loads, the credential is not empty and the endpoint answers every
    request with at least one choice whose content is a text.  It then has
    issued four requests, stored texts for literature, gaps, outline and
    review in that order, and written the report with these sections. *)
Theorem script_completes `{Python}
    (endpoint : list Request -> Request -> exn + Response)
    (argv : list string) (w : World) (g : Config.globals) (key : string) :
  (Config.import w).2 = inr g ->
  environ w !! "GROQ_API_KEY" = Some key ->
  key <> "" ->
  (forall served req,
     exists text rest, endpoint served req = inr (Some text :: rest)) ->
  exists w' self' sections,
    Autogen.script endpoint argv w = (w', inr self') /\
    Autogen.outputs self' = map (fun entry => (entry.1, Some entry.2)) sections /\
    map fst sections = ["literature"; "gaps"; "outline"; "review"] /\
    length (calls w') = (length (calls w) + 4)%nat /\
    files w' !! Autogen.out_path =
      Some (report Autogen.TOPIC (Config.GROQ_MODEL g) sections).
Proof.
  intros Himport Henv Hne Hanswers.
  assert (Hok : Config.import w = (w, inr g))
    by (rewrite import_eq, Himport; reflexivity).
  destruct (import_key w g Himport) as (Hkey & _). rewrite Henv in Hkey.
  pose proof (import_phases w g Himport) as Hphases.
  unfold Autogen.script. rewrite (bind_inr _ _ _ _ _ Hok).
  rewrite (bind_inr _ _ _ _ _ (init_with_key g key None w Hkey Hne)).
  set (self := {| Autogen.client := key;
                  Autogen.model := default (Config.GROQ_MODEL g) None;
                  Autogen.outputs := [] |}).
  assert (Hnodup : NoDup (map Config.name (Config.WORKFLOW_PHASES g))).
  { rewrite Hphases. apply (bool_decide_unpack _). vm_compute. exact I. }
  destruct (replay_answers_text endpoint g self (Config.WORKFLOW_PHASES g)
              (calls (greeted self w)) Hanswers) as (sections & Hreplay).
  { rewrite Hphases. intros phase Hin.
    destruct (phases_configured _ _ Hin) as (_ & _ & role & Hrole). eauto. }
  pose proof (replay_names _ _ _ _ _ _ Hreplay) as Hnames.
  pose proof (run_phases_replay endpoint g (Config.WORKFLOW_PHASES g) self
                (greeted self w)) as Hloop.
  rewrite Hreplay in Hloop. destruct Hloop as (w1 & Hloop).
  rewrite dict_update_append in Hloop
    by (simpl; rewrite Hnames; now apply NoDup_ListNoDup).
  destruct (run_inr endpoint g self w w1 _ sections Hloop eq_refl)
    as (w' & Hrun & Hcalls & _ & Hreport & _).
  destruct (run_phases_inr _ _ _ _ _ _ _ Hloop) as (_ & Hcount & _).
  eexists w', _, sections. split; [exact Hrun |]. split; [reflexivity |].
  split; [| split].
  - rewrite map_map in Hnames. simpl in Hnames.
    rewrite Hphases in Hnames. exact Hnames.
  - rewrite Hcalls, Hcount, Hphases. reflexivity.
  - exact Hreport.
Qed.

Lemma script_completes_witness :
  exists w' self' sections,
    Autogen.script (H := scenario_python) tally_endpoint ["autogen_simple_demo.py"]
      keyed_world = (w', inr self') /\
    Autogen.outputs self'
    = map (fun entry : string * string => (entry.1, Some entry.2)) sections /\
    map fst sections = ["literature"; "gaps"; "outline"; "review"] /\
    length (calls w') = (length (calls keyed_world) + 4)%nat /\
    files w' !! Autogen.out_path =
      Some (report Autogen.TOPIC "llama-3.1-8b-instant" sections).
Proof.
  refine (script_completes (H := scenario_python) tally_endpoint
            ["autogen_simple_demo.py"] keyed_world
            (loud_globals (Config.phases float_0_7)) "gsk-test" _ eq_refl _ _).
  - vm_compute. reflexivity.
  - discriminate.
  - intros served req. eexists _, []. reflexivity.
Defined.

(** ** What a run leaves behind *)

(** X13: a completed run changes one file only.  The stored outputs are
    texts; the report is replaced as a whole by the header and one section
    per stored text, whatever it held before; every other file of the
    project root and the process environment are as they were. *)
Theorem run_touches_only_report `{Python}
    (endpoint : list Request -> Request -> exn + Response) (g : Config.globals)
    (self : Autogen.ResearchPaperWorkflow) (w w' : World)
    (self' : Autogen.ResearchPaperWorkflow) :
  Autogen.run endpoint g self w = (w', inr self') ->
  (exists sections,
     Autogen.outputs self' = map (fun entry => (entry.1, Some entry.2)) sections /\
     files w' !! Autogen.out_path =
       Some (report Autogen.TOPIC (Autogen.model self) sections)) /\
  (forall name, name <> Autogen.out_path -> files w' !! name = files w !! name) /\
  environ w' = environ w.
Proof.
  intros Hrun.
  destruct (run_inr_inv _ _ _ _ _ _ Hrun)
    as (w1 & sections & Hloop & Htexts & _ & Henv & Hreport & Hother).
  destruct (run_phases_inr _ _ _ _ _ _ _ Hloop) as (Hmodel & _ & _).
  pose proof (run_phases_files endpoint g (Config.WORKFLOW_PHASES g) self
                (greeted self w)) as Hfiles1.
  pose proof (run_phases_environ endpoint g (Config.WORKFLOW_PHASES g) self
                (greeted self w)) as Henv1.
  rewrite Hloop in Hfiles1, Henv1. cbn [fst] in Hfiles1, Henv1.
  split; [exists sections; split; [exact Htexts | now rewrite Hreport, Hmodel] |].
  split.
  - intros name Hname. rewrite (Hother name Hname).
    exact (f_equal (fun fs => fs !! name) Hfiles1).
  - rewrite Henv. exact Henv1.
Qed.

Lemma run_touches_only_report_witness :
  (exists sections,
     [("literature", Some "ALPHA"); ("gaps", Some "BETA");
      ("outline", Some "GAMMA"); ("review", Some "DELTA")]
     = map (fun entry : string * string => (entry.1, Some entry.2)) sections /\
     files (Autogen.run (H := scenario_python) (scripted four_replies)
              keyed_globals fresh_workflow used_world).1 !! Autogen.out_path =
       Some (report Autogen.TOPIC "llama-3.1-8b-instant" sections)) /\
  (forall name, name <> Autogen.out_path ->
     files (Autogen.run (H := scenario_python) (scripted four_replies)
              keyed_globals fresh_workflow used_world).1 !! name
     = files used_world !! name) /\
  environ (Autogen.run (H := scenario_python) (scripted four_replies)
             keyed_globals fresh_workflow used_world).1 = environ used_world.
Proof.
  refine (run_touches_only_report (H := scenario_python) (scripted four_replies)
            keyed_globals fresh_workflow used_world _
            {| Autogen.client := "gsk-test";
               Autogen.model := "llama-3.1-8b-instant";
               Autogen.outputs :=
                 [("literature", Some "ALPHA"); ("gaps", Some "BETA");
                  ("outline", Some "GAMMA"); ("review", Some "DELTA")] |} _).
  vm_compute. reflexivity.
Defined.

(** X20: a completion whose content is [None] does not stop the phase
    loop, but it breaks the report.  When the loop has completed and the
    first [None] among the stored outputs is under [phase_name], [run]
    raises [TypeError] while writing: the old report is gone, the new one
    holds the header, the sections stored before that entry and its
    delimiter line, no further request was issued and no other file was
    touched. *)
Theorem none_content_breaks_report `{Python}
    (endpoint : list Request -> Request -> exn + Response) (g : Config.globals)
    (self : Autogen.ResearchPaperWorkflow) (w w1 : World)
    (self1 : Autogen.ResearchPaperWorkflow)
    (sections : list (string * string)) (phase_name : string)
    (rest : list (string * option string)) :
  Autogen.run_phases endpoint g (Config.WORKFLOW_PHASES g) self (greeted self w)
    = (w1, inr self1) ->
  Autogen.outputs self1 =
    map (fun entry => (entry.1, Some entry.2)) sections ++ (phase_name, None) :: rest ->
  exists w',
    Autogen.run endpoint g self w
      = (w', inl (TypeError "write() argument must be str, not None")) /\
    calls w' = calls w1 /\
    files w' !! Autogen.out_path =
      Some ((("AutoGen Exercise 4 - Research Paper Outline" +:+ LF +:+
              str_mul "=" 80 +:+ LF +:+
              "Topic: " +:+ Autogen.TOPIC +:+ LF +:+
              "Model: " +:+ Autogen.model self +:+ LF +:+ LF) +:+
             concat_str
               (map (fun entry => "--- PHASE: " +:+ entry.1 +:+ " ---" +:+ LF +:+
                                  entry.2 +:+ LF +:+ LF)
                    sections)) +:+
            "--- PHASE: " +:+ phase_name +:+ " ---" +:+ LF) /\
    forall name, name <> Autogen.out_path -> files w' !! name = files w !! name.
Proof.
  intros Hloop Hnone.
  destruct (run_none endpoint g self w w1 self1 sections phase_name rest Hloop Hnone)
    as (w' & Hrun & Hcalls & _ & Hreport & Hother).
  destruct (run_phases_inr _ _ _ _ _ _ _ Hloop) as (Hmodel & _ & _).
  pose proof (run_phases_files endpoint g (Config.WORKFLOW_PHASES g) self
                (greeted self w)) as Hfiles1.
  rewrite Hloop in Hfiles1. cbn [fst] in Hfiles1.
  exists w'. split; [exact Hrun |]. split; [exact Hcalls |]. split.
  - rewrite Hreport, Hmodel. reflexivity.
  - intros name Hname. rewrite (Hother name Hname).
    exact (f_equal (fun fs => fs !! name) Hfiles1).
Qed.

Lemma none_content_breaks_report_witness :
  files (Autogen.run (H := scenario_python) null_endpoint keyed_globals
           fresh_workflow used_world).1 !! Autogen.out_path
  = Some ("AutoGen Exercise 4 - Research Paper Outline" +:+ LF +:+
          str_mul "=" 80 +:+ LF +:+
          "Topic: How multi-agent AI systems can support human decision-making" +:+
          LF +:+
          "Model: llama-3.1-8b-instant" +:+ LF +:+ LF +:+
          "--- PHASE: literature ---" +:+ LF) /\
  exists w',
    Autogen.run (H := scenario_python) null_endpoint keyed_globals fresh_workflow
      used_world
      = (w', inl (TypeError "write() argument must be str, not None")) /\
    calls w' =
      calls (Autogen.run_phases (H := scenario_python) null_endpoint keyed_globals
               (Config.WORKFLOW_PHASES keyed_globals) fresh_workflow
               (greeted fresh_workflow used_world)).1 /\
    files w' !! Autogen.out_path =
      Some ((("AutoGen Exercise 4 - Research Paper Outline" +:+ LF +:+
              str_mul "=" 80 +:+ LF +:+
              "Topic: " +:+ Autogen.TOPIC +:+ LF +:+
              "Model: " +:+ "llama-3.1-8b-instant" +:+ LF +:+ LF) +:+
             concat_str
               (map (fun entry : string * string =>
                       "--- PHASE: " +:+ entry.1 +:+ " ---" +:+ LF +:+
                       entry.2 +:+ LF +:+ LF)
                    [])) +:+
            "--- PHASE: " +:+ "literature" +:+ " ---" +:+ LF) /\
    forall name, name <> Autogen.out_path ->
      files w' !! name = files used_world !! name.
Proof.
  split; [vm_compute; reflexivity |].
  refine (none_content_breaks_report (H := scenario_python) null_endpoint
            keyed_globals fresh_workflow used_world _
            {| Autogen.client := "gsk-test";
               Autogen.model := "llama-3.1-8b-instant";
               Autogen.outputs :=
                 [("literature", None); ("gaps", None);
                  ("outline", None); ("review", None)] |}
            [] "literature" [("gaps", None); ("outline", None); ("review", None)]
            _ eq_refl).
  vm_compute. reflexivity.
Defined.

(** ** The conference program *)

(** [main] with a usable credential runs the framework in [handed_over]
    and goes on with the result. *)
Lemma crewai_main_raises
    (kickoff : Crewai.Crew -> gmap string string -> M string)
    (now : string) (g : Config.globals) (theme key : string) (w w1 : World)
    (e : exn) :
  Config.GROQ_API_KEY g = Some key ->
  key <> "" ->
  kickoff (Crewai.build_crew g theme) {[ "conference_theme" := theme ]}
    (handed_over g key theme w) = (w1, inl e) ->
  Crewai.main kickoff now g theme w = (w1, inl e).
Proof.
  intros Hkey Hne Hkick.
  assert (Htruthy : truthy (Config.GROQ_API_KEY g) = true).
  { rewrite Hkey. simpl. now destruct (String.eqb_spec key "") as [-> | _]. }
  unfold Crewai.main. rewrite !bind_print, Htruthy. simpl negb. cbv iota.
  unfold bind at 1, ret at 1.
  rewrite !bind_setenv, !bind_print, Hkey. cbv zeta.
  apply bind_inl. exact Hkick.
Qed.

Lemma crewai_main_returns
    (kickoff : Crewai.Crew -> gmap string string -> M string)
    (now : string) (g : Config.globals) (theme key : string) (w w1 : World)
    (result : string) :
  Config.GROQ_API_KEY g = Some key ->
  key <> "" ->
  kickoff (Crewai.build_crew g theme) {[ "conference_theme" := theme ]}
    (handed_over g key theme w) = (w1, inr result) ->
  exists w',
    Crewai.main kickoff now g theme w = (w', inr tt) /\
    calls w' = calls w1 /\
    environ w' = environ w1 /\
    files w' =
      <[ Crewai.out_path :=
           agenda_header theme (Config.GROQ_MODEL g) now +:+ result ]>
        (files w1).
Proof.
  intros Hkey Hne Hkick.
  assert (Htruthy : truthy (Config.GROQ_API_KEY g) = true).
  { rewrite Hkey. simpl. now destruct (String.eqb_spec key "") as [-> | _]. }
  unfold Crewai.main. rewrite !bind_print, Htruthy. simpl negb. cbv iota.
  unfold bind at 1, ret at 1.
  rewrite !bind_setenv, !bind_print, Hkey. cbv zeta.
  change (default "" (Some key)) with key.
  rewrite (bind_inr _ _ _ _ _ Hkick).
  rewrite !bind_print, bind_open_w, !bind_write.
  eexists. split; [reflexivity |].
  cbn [print write open_w fst calls environ files].
  repeat split.
  rewrite !alter_insert_eq. f_equal.
  unfold agenda_header. now rewrite !append_assoc.
Qed.

(** In [handed_over] only the three variables have moved. *)
Lemma handed_over_world (g : Config.globals) (key theme : string) (w : World) :
  environ (handed_over g key theme w) =
    <[ "OPENAI_MODEL_NAME" := Config.GROQ_MODEL g ]>
      (<[ "OPENAI_API_BASE" := Config.GROQ_API_BASE g ]>
         (<[ "OPENAI_API_KEY" := key ]> (environ w))) /\
  calls (handed_over g key theme w) = calls w /\
  files (handed_over g key theme w) = files w.
Proof. repeat split. Qed.

(** X14: before the framework starts, [main] binds the Groq settings to the
    three [OPENAI_*] variables, replacing whatever they held; it has issued
    no request and written no file by then.  If the framework raises, [main]
    raises the same exception and adds nothing: the world is the one the
    framework left, so [main] writes no report. *)
Theorem crewai_binds_openai_environment
    (kickoff : Crewai.Crew -> gmap string string -> M string)
    (now : string) (g : Config.globals) (theme key : string) (w : World) :
  Config.GROQ_API_KEY g = Some key ->
  key <> "" ->
  exists w0,
    environ w0 !! "OPENAI_API_KEY" = Some key /\
    environ w0 !! "OPENAI_API_BASE" = Some (Config.GROQ_API_BASE g) /\
    environ w0 !! "OPENAI_MODEL_NAME" = Some (Config.GROQ_MODEL g) /\
    (forall name,
       name <> "OPENAI_API_KEY" -> name <> "OPENAI_API_BASE" ->
       name <> "OPENAI_MODEL_NAME" ->
       environ w0 !! name = environ w !! name) /\
    calls w0 = calls w /\
    files w0 = files w /\
    forall w1 e,
      kickoff (Crewai.build_crew g theme) {[ "conference_theme" := theme ]} w0
        = (w1, inl e) ->
      Crewai.main kickoff now g theme w = (w1, inl e).
Proof.
  intros Hkey Hne.
  destruct (handed_over_world g key theme w) as (Henv & Hcalls & Hfiles).
  exists (handed_over g key theme w). rewrite Henv.
  split; [now rewrite !lookup_insert_ne, lookup_insert_eq by discriminate |].
  split; [now rewrite lookup_insert_ne, lookup_insert_eq by discriminate |].
  split; [now rewrite lookup_insert_eq |].
  split; [| split; [exact Hcalls | split; [exact Hfiles |]]].
  - intros name H1 H2 H3. now rewrite !lookup_insert_ne by congruence.
  - intros w1 e Hkick. now apply (crewai_main_raises _ _ _ _ key).
Qed.

Lemma crewai_binds_openai_environment_witness :
  exists w0,
    environ w0 !! "OPENAI_API_KEY" = Some "gsk-test" /\
    environ w0 !! "OPENAI_API_BASE" = Some "https://api.groq.com/openai/v1" /\
    environ w0 !! "OPENAI_MODEL_NAME" = Some "llama-3.1-8b-instant" /\
    (forall name,
       name <> "OPENAI_API_KEY" -> name <> "OPENAI_API_BASE" ->
       name <> "OPENAI_MODEL_NAME" ->
       environ w0 !! name = environ keyed_world !! name) /\
    calls w0 = calls keyed_world /\
    files w0 = files keyed_world /\
    forall w1 e,
      failing_kickoff (Crewai.build_crew keyed_globals "AI in Education")
        {[ "conference_theme" := "AI in Education" ]} w0 = (w1, inl e) ->
      Crewai.main failing_kickoff "2025-01-01 09:00:00" keyed_globals
        "AI in Education" keyed_world = (w1, inl e).
Proof.
  apply (crewai_binds_openai_environment failing_kickoff "2025-01-01 09:00:00"
           keyed_globals "AI in Education" "gsk-test" keyed_world);
    [reflexivity | discriminate].
Defined.

(** X15: when the framework returns, [main] completes.  Beyond what the
    framework did, it issues no request and leaves the environment alone;
    it replaces the agenda report as a whole by the header (theme, model,
    time) followed by the result, and touches no other file. *)
Theorem crewai_report_after_kickoff
    (kickoff : Crewai.Crew -> gmap string string -> M string)
    (now : string) (g : Config.globals) (theme key : string) (w : World) :
  Config.GROQ_API_KEY g = Some key ->
  key <> "" ->
  exists w0,
    calls w0 = calls w /\
    files w0 = files w /\
    forall w1 result,
      kickoff (Crewai.build_crew g theme) {[ "conference_theme" := theme ]} w0
        = (w1, inr result) ->
      exists w',
        Crewai.main kickoff now g theme w = (w', inr tt) /\
        calls w' = calls w1 /\
        environ w' = environ w1 /\
        files w' !! Crewai.out_path =
          Some (agenda_header theme (Config.GROQ_MODEL g) now +:+ result) /\
        forall name, name <> Crewai.out_path ->
          files w' !! name = files w1 !! name.
Proof.
  intros Hkey Hne.
  destruct (handed_over_world g key theme w) as (_ & Hcalls & Hfiles).
  exists (handed_over g key theme w).
  split; [exact Hcalls |]. split; [exact Hfiles |].
  intros w1 result Hkick.
  destruct (crewai_main_returns kickoff now g theme key w w1 result Hkey Hne Hkick)
    as (w' & Hmain & Hcalls' & Henv' & Hfiles').
  exists w'. split; [exact Hmain |]. split; [exact Hcalls' |].
  split; [exact Henv' |]. rewrite Hfiles'.
  split; [apply lookup_insert_eq |].
  intros name Hname. now rewrite lookup_insert_ne by congruence.
Qed.

Lemma crewai_report_after_kickoff_witness :
  exists w0,
    calls w0 = calls used_world /\
    files w0 = files used_world /\
    forall w1 result,
      stub_kickoff (Crewai.build_crew keyed_globals "AI Safety")
        {[ "conference_theme" := "AI Safety" ]} w0 = (w1, inr result) ->
      exists w',
        Crewai.main stub_kickoff "2025-01-01 09:00:00" keyed_globals
          "AI Safety" used_world = (w', inr tt) /\
        calls w' = calls w1 /\
        environ w' = environ w1 /\
        files w' !! Crewai.out_path =
          Some (agenda_header "AI Safety" "llama-3.1-8b-instant"
                  "2025-01-01 09:00:00" +:+ result) /\
        forall name, name <> Crewai.out_path ->
          files w' !! name = files w1 !! name.
Proof.
  apply (crewai_report_after_kickoff stub_kickoff "2025-01-01 09:00:00"
           keyed_globals "AI Safety" "gsk-test" used_world);
    [reflexivity | discriminate].
Defined.


(** X17: the theme is the command line glued with single blanks.  One
    argument is taken as it is, and splitting a theme at a blank into two
    arguments gives the same theme as passing it whole. *)
Theorem theme_glues_arguments (prog a b : string) (rest : list string) :
  Crewai.theme_of_argv [prog; a] = a /\
  Crewai.theme_of_argv (prog :: a :: b :: rest)
  = Crewai.theme_of_argv (prog :: (a +:+ " " +:+ b) :: rest).
Proof.
  split; [reflexivity |].
  unfold Crewai.theme_of_argv; simpl.
  destruct rest; [reflexivity |]. now rewrite !append_assoc.
Qed.

(** ** Running again, and the placeholder *)

(** X18: running a workflow again keeps the layout of its outputs.  When
    every configured phase already has an entry, a completed [run] leaves
    the keys as they were, in the same order, so the sections of the new
    report come in the order of the old one. *)
Theorem rerun_keeps_section_order `{Python}
    (endpoint : list Request -> Request -> exn + Response) (g : Config.globals)
    (self : Autogen.ResearchPaperWorkflow) (w w' : World)
    (self' : Autogen.ResearchPaperWorkflow) :
  (forall phase, In phase (Config.WORKFLOW_PHASES g) ->
     In (Config.name phase) (map fst (Autogen.outputs self))) ->
  Autogen.run endpoint g self w = (w', inr self') ->
  map fst (Autogen.outputs self') = map fst (Autogen.outputs self).
Proof.
  intros Hpresent Hrun.
  destruct (run_inr_inv _ _ _ _ _ _ Hrun) as (w1 & sections & Hloop & _).
  clear Hrun sections.
  revert Hpresent Hloop. generalize (greeted self w) as w0.
  generalize (Config.WORKFLOW_PHASES g) as phases.
  intros phases. revert self.
  induction phases as [| phase rest IH]; intros self w0 Hpresent Hloop.
  - simpl in Hloop. now injection Hloop as <- <-.
  - simpl in Hloop. apply bind_inr_inv in Hloop as (wa & selfa & Hstep & Hrest).
    destruct (run_phase_inr _ _ _ _ _ _ _ _ _ Hstep)
      as (role & content & more & _ & _ & _ & _ & _ & _ & Houts).
    assert (Hsame : map fst (Autogen.outputs selfa) = map fst (Autogen.outputs self)).
    { rewrite Houts.
      destruct (dict_set_keys (Autogen.outputs self) (Config.name phase) content)
        as [(_ & Heq) | (Hnot & _)]; [exact Heq |].
      exfalso. apply Hnot, Hpresent. now left. }
    rewrite <- Hsame. apply (IH selfa wa); [| exact Hrest].
    intros p Hp. rewrite Hsame. apply Hpresent. now right.
Qed.

Lemma rerun_keeps_section_order_witness :
  map fst [("b", Some "Y"); ("a", Some "X")] = map fst [("b", Some "old"); ("a", Some "older")].
Proof.
  refine (rerun_keeps_section_order (H := scenario_python) (scripted ["X"; "Y"])
            (quiet_globals [phase_a; phase_b])
            {| Autogen.client := "gsk-test";
               Autogen.model := "llama-3.1-8b-instant";
               Autogen.outputs := [("b", Some "old"); ("a", Some "older")] |}
            empty_world
            (Autogen.run (H := scenario_python) (scripted ["X"; "Y"])
               (quiet_globals [phase_a; phase_b])
               {| Autogen.client := "gsk-test";
                  Autogen.model := "llama-3.1-8b-instant";
                  Autogen.outputs := [("b", Some "old"); ("a", Some "older")] |}
               empty_world).1
            {| Autogen.client := "gsk-test";
               Autogen.model := "llama-3.1-8b-instant";
               Autogen.outputs := [("b", Some "Y"); ("a", Some "X")] |} _ _).
  - simpl. intros phase [<- | [<- | []]]; simpl; tauto.
  - vm_compute. reflexivity.
Defined.

(** X19: the placeholder stands for an empty context and for nothing else.
    The rendered context is "No prior context yet." exactly when nothing is
    stored; with at least one stored output it starts with a block header,
    even if a stored text happens to be the placeholder itself. *)
Theorem placeholder_iff_nothing_stored `{Python}
    (outs : list (string * option string)) :
  Autogen.context_text outs = "No prior context yet." <-> outs = [].
Proof.
  rewrite context_text_blocks. split.
  - destruct outs as [| [name text] [| second rest]]; [reflexivity | |];
      intros Heq; exfalso; revert Heq; unfold block; simpl;
      change ("[" +:+ ?s) with (String "[" s); discriminate.
  - now intros ->.
Qed.
